(** * File-to-table ingestion of the SQL console: helper/gen_sql_chunk.py

    A shallow embedding of the upload helpers
    ([create_sqlite_from_uploaded_file], [get_file_info],
    [generate_create_table_sql], [generate_insert_sql]) and the properties the
    specification states about them.

    Python strings are modelled as [string] (sequences of bytes: every
    character the code looks for is ASCII, and no byte of a multi-byte UTF-8
    character equals an ASCII character), the set [seen_columns] as a
    [gset string], lists as [list]. A call ends in a [result]: a value, a
    raised exception, or a loop of the model out of fuel. The functions of
    pandas, json, numpy and tempfile that the helpers call are the fields
    of the class [Libraries]; the helpers that touch the files or the
    random generator are steps of the monad [Py] over the state [world].

    The first part holds the definitions, the second part the facts and
    the claims C1 to C10, followed by further properties X1 to X21 of the
    same helpers and of the code around them: the code generators and the
    direct writer of helper/gen_sql_chunk.py, the conversion, the query
    history and the quick actions of app.py, the chat histories of
    sql_gen.py and helper/insight_gen.py, and the suggestions of
    helper/visualization_helper.py. *)

From Stdlib Require Import ZArith Ascii QArith.QArith_base Floats.SpecFloat.
From stdpp Require Import base decidable option numbers list sets gmap strings pretty.

(** ** Python string methods *)

Module PyStr.

(** [s.replace(old, new)] for one-character [old] and [new]. *)
Fixpoint replace (old new : ascii) (s : string) : string :=
  match s with
  | "" => ""
  | String c s' => String (if Ascii.eqb c old then new else c) (replace old new s')
  end.

(** [s.split(sep)] for a one-character separator: the fragments between
    the separators, empty ones included; [''.split(sep)] is [['']]. *)
Fixpoint split (sep : ascii) (s : string) : list string :=
  match s with
  | "" => [""]
  | String c s' =>
      if Ascii.eqb c sep then "" :: split sep s'
      else match split sep s' with
           | p :: ps => String c p :: ps
           | [] => [String c ""]
           end
  end.

(** [sep.join(parts)]. *)
Fixpoint join (sep : string) (parts : list string) : string :=
  match parts with
  | [] => ""
  | [p] => p
  | p :: ps => p +:+ sep +:+ join sep ps
  end.

(** Truth value of a string: non-empty. *)
Definition truthy (s : string) : bool :=
  match s with "" => false | _ => true end.

(** [str(i)] of a non-negative integer: its decimal digits. *)
Definition of_nat (i : nat) : string := pretty i.

(** Character-wise image of a string. *)
Fixpoint map (f : ascii → ascii) (s : string) : string :=
  match s with
  | "" => ""
  | String c s' => String (f c) (map f s')
  end.

(** Every character of the string satisfies [P]. *)
Fixpoint all (P : ascii → Prop) (s : string) : Prop :=
  match s with
  | "" => True
  | String c s' => P c ∧ all P s'
  end.

Fixpoint mem (c : ascii) (s : string) : bool :=
  match s with
  | "" => false
  | String d s' => Ascii.eqb c d || mem c s'
  end.

(** [s.replace(old, new)] for a one-character [old] and any [new]. *)
Fixpoint replace_with (old : ascii) (new : string) (s : string) : string :=
  match s with
  | "" => ""
  | String c s' =>
      if Ascii.eqb c old then new +:+ replace_with old new s'
      else String c (replace_with old new s')
  end.

Fixpoint startswith (prefix s : string) : bool :=
  match prefix, s with
  | "", _ => true
  | String a prefix', String b s' => Ascii.eqb a b && startswith prefix' s'
  | String _ _, "" => false
  end.

(** [s.endswith(suffix)]. *)
Definition endswith (suffix s : string) : bool :=
  startswith (String.rev suffix) (String.rev s).

End PyStr.

(** ** Column-name sanitization (create_sqlite_from_uploaded_file, lines 314-370) *)

(** The chain of [.replace(c, '_')] calls of lines 316-341, in source order;
    the argument is [str(col)]. *)
Definition replace_special (col : string) : string :=
  let col := PyStr.replace " " "_" col in
  let col := PyStr.replace "-" "_" col in
  let col := PyStr.replace "." "_" col in
  let col := PyStr.replace "(" "_" col in
  let col := PyStr.replace ")" "_" col in
  let col := PyStr.replace "/" "_" col in
  let col := PyStr.replace "\" "_" col in
  let col := PyStr.replace "[" "_" col in
  let col := PyStr.replace "]" "_" col in
  let col := PyStr.replace "{" "_" col in
  let col := PyStr.replace "}" "_" col in
  let col := PyStr.replace ":" "_" col in
  let col := PyStr.replace ";" "_" col in
  let col := PyStr.replace "," "_" col in
  let col := PyStr.replace "?" "_" col in
  let col := PyStr.replace "!" "_" col in
  let col := PyStr.replace "@" "_" col in
  let col := PyStr.replace "#" "_" col in
  let col := PyStr.replace "$" "_" col in
  let col := PyStr.replace "%" "_" col in
  let col := PyStr.replace "^" "_" col in
  let col := PyStr.replace "&" "_" col in
  let col := PyStr.replace "*" "_" col in
  let col := PyStr.replace "+" "_" col in
  let col := PyStr.replace "=" "_" col in
  let col := PyStr.replace "|" "_" col in
  col.

(** ['_'.join([part for part in col.split('_') if part])], line 347. *)
Definition remove_empty_parts (col : string) : string :=
  PyStr.join "_" (List.filter PyStr.truthy (PyStr.split "_" col)).

(** [f"column_{i}" if col == "" else col], line 352. *)
Definition name_empty_column (i : nat) (col : string) : string :=
  if decide (col = "") then "column_" +:+ PyStr.of_nat i else col.

(** The three comprehensions of lines 315-352 on the sequence of
    [str(col)]. *)
Definition clean_column_names (cols : list string) : list string :=
  imap name_empty_column (remove_empty_parts <$> (replace_special <$> cols)).

(** [f"{col}_{counter}"]. *)
Definition suffixed (col : string) (counter : nat) : string :=
  col +:+ "_" +:+ PyStr.of_nat counter.

(** The [while new_col in seen_columns] loop of lines 359-363, entered with
    [counter]; [fuel] bounds the number of tests of the loop condition. *)
Fixpoint free_suffix (fuel : nat) (seen_columns : gset string) (col : string)
    (counter : nat) : option string :=
  match fuel with
  | 0 => None
  | S fuel' =>
      let new_col := suffixed col counter in
      if decide (new_col ∈ seen_columns)
      then free_suffix fuel' seen_columns col (S counter)
      else Some new_col
  end.

(** The [for col in df.columns] loop of lines 357-368, with its state
    [seen_columns] and [new_columns]. A set of [n] names holds at most [n]
    of the candidates, so [n + 1] tests are enough for the inner loop. *)
Fixpoint dedup_loop (cols : list string) (seen_columns : gset string)
    (new_columns : list string) : option (list string) :=
  match cols with
  | [] => Some new_columns
  | col :: cols' =>
      if decide (col ∈ seen_columns) then
        new_col ← free_suffix (S (size seen_columns)) seen_columns col 1;
        dedup_loop cols' ({[new_col]} ∪ seen_columns) (new_columns ++ [new_col])
      else
        dedup_loop cols' ({[col]} ∪ seen_columns) (new_columns ++ [col])
  end.

(** Lines 355-370. *)
Definition remove_duplicate_columns (cols : list string) : option (list string) :=
  dedup_loop cols ∅ [].

(** Lines 314-370: what [df.columns] is set to, from [str(col)] of the
    parsed frame's labels. *)
Definition sanitize_columns (cols : list string) : option (list string) :=
  remove_duplicate_columns (clean_column_names cols).

(** ** The sanitization as the specification words it

    Step 1 replaces every character of the blocklist by an underscore,
    step 2 splits on underscores and rejoins the non-empty fragments,
    step 3 names an empty result [column_<index>]. *)

Definition blocklist : string := " -.()[]{}/\:;,?!@#$%^&*+=|".

Definition blocklist_to_underscore (c : ascii) : ascii :=
  if PyStr.mem c blocklist then "_"%char else c.

Definition spec_sanitize_name (i : nat) (col : string) : string :=
  let replaced := PyStr.map blocklist_to_underscore col in
  let fragments := List.filter (λ p, negb (String.eqb p "")) (PyStr.split "_" replaced) in
  let joined := PyStr.join "_" fragments in
  if String.eqb joined "" then "column_" +:+ pretty i else joined.

(** ** Predicates on names, for the statements below *)

(** Decimal digits, as [str] of a non-negative integer prints them. *)
Definition digit (c : ascii) : Prop := PyStr.mem c "0123456789" = true.

(** What one [.replace(old, '_')] does to a character. *)
Definition sub (old c : ascii) : ascii := if Ascii.eqb c old then "_"%char else c.

(** A character outside the blocklist. *)
Definition allowed (c : ascii) : Prop := PyStr.mem c blocklist = false.

(** A name the sanitization leaves alone: no blocklisted character, and no
    empty fragment between underscores (so it is not empty, and has no
    leading, trailing or doubled underscore). *)
Definition clean_name (s : string) : Prop :=
  PyStr.all allowed s ∧ Forall (λ p, p ≠ "") (PyStr.split "_" s).

(** What the loop gives for [col] when the names given out so far are
    [earlier]: [col] itself when it is not among them, otherwise [col_k]
    for the least [k >= 1] such that [col_k] is not among them. *)
Definition dedup_step (earlier : list string) (col out : string) : Prop :=
  ((col ∉ earlier) ∧ out = col) ∨
  (col ∈ earlier ∧ ∃ k, 1 ≤ k ∧ out = suffixed col k ∧ (out ∉ earlier) ∧
     ∀ j, 1 ≤ j < k → suffixed col j ∈ earlier).

(** The rule for duplicates as the specification states it: the names
    given out are pairwise distinct, the first occurrence of a name keeps
    it, and a later occurrence gets the least positive suffix that no
    earlier name given out uses. [names] are the names after steps 1 to
    3. *)
Definition claimed_dedup (names out : list string) : Prop :=
  NoDup out
  ∧ (∀ i col, names !! i = Some col → (col ∉ take i names) → out !! i = Some col)
  ∧ (∀ i col, names !! i = Some col → col ∈ take i names →
       ∃ k, 1 ≤ k ∧ out !! i = Some (suffixed col k)
         ∧ (suffixed col k ∉ take i out)
         ∧ ∀ j, 1 ≤ j < k → suffixed col j ∈ take i out).

(** ** Python values, exceptions and outcomes *)

(** The built-in classes [generate_insert_sql] tests values against. *)
Inductive pyclass := ClsStr | ClsInt | ClsFloat | ClsBool.

Global Instance pyclass_eq_dec : EqDecision pyclass.
Proof. solve_decision. Defined.

(** A cell of a frame. [PyObject bases na text] is an object of any other
    class: [bases] are the built-in classes its class derives from, [na]
    whether [pd.isna] holds of it, [text] what [str] gives for it (numpy
    scalars, timestamps, decimals, dicts). A cell that holds a list is left
    out: [pd.isna] gives an array for it. *)
Inductive pyval :=
| PyNone
| PyBool (b : bool)
| PyInt (n : Z)
| PyFloat (x : spec_float)
| PyStr (s : string)
| PyObject (bases : list pyclass) (na : bool) (text : string).

(** [isinstance(value, cls)]: [bool] is a subclass of [int], and no class
    derives from [bool]. *)
Definition isinstance_of (value : pyval) (cls : pyclass) : bool :=
  match value with
  | PyNone => false
  | PyBool _ => bool_decide (cls = ClsBool) || bool_decide (cls = ClsInt)
  | PyInt _ => bool_decide (cls = ClsInt)
  | PyFloat _ => bool_decide (cls = ClsFloat)
  | PyStr _ => bool_decide (cls = ClsStr)
  | PyObject bases _ _ => bool_decide (cls ≠ ClsBool) && bool_decide (cls ∈ bases)
  end.

(** [isinstance(value, (cls1, cls2, ...))]. *)
Definition isinstance (value : pyval) (classes : list pyclass) : bool :=
  existsb (isinstance_of value) classes.

(** [pd.isna(value)] on a scalar. *)
Definition pd_isna (value : pyval) : bool :=
  match value with
  | PyNone => true
  | PyFloat S754_nan => true
  | PyObject _ na _ => na
  | _ => false
  end.

(** Exceptions: the ones the helpers raise themselves carry their message;
    [LibraryError] is any exception raised inside pandas, json or the
    codec. *)
Inductive exn :=
| ValueError (msg : string)
| UnboundLocalError (variable : string)
| LibraryError (msg : string).

(** The outcome of a call: a value, a raised exception, or a loop of the
    model that ran out of fuel. *)
Inductive result (A : Type) :=
| Ok (a : A)
| Raise (e : exn)
| OutOfFuel.
Arguments Ok {A} a.
Arguments Raise {A} e.
Arguments OutOfFuel {A}.

Global Instance result_ret : MRet result := λ A a, Ok a.
Global Instance result_bind : MBind result := λ A B f r,
  match r with
  | Ok a => f a
  | Raise e => Raise e
  | OutOfFuel => OutOfFuel
  end.

(** What a library call gives: its exception's message or its value. *)
Definition of_lib {A} (r : string + A) : result A :=
  match r with
  | inl msg => Raise (LibraryError msg)
  | inr a => Ok a
  end.

(** A loop of the model that may run out of fuel. *)
Definition of_fuel {A} (r : option A) : result A :=
  match r with
  | Some a => Ok a
  | None => OutOfFuel
  end.

(** ** JSON values and frames *)

(** What [json.loads] returns; a dict keeps its keys in order. *)
#[warnings="-register-all"]
Inductive json :=
| JNull
| JBool (b : bool)
| JInt (n : Z)
| JFloat (x : spec_float)
| JStr (s : string)
| JList (items : list json)
| JDict (items : list (string * json)).

(** pandas dtypes of the columns of a frame read from text. *)
Inductive dtype :=
| dtype_int64
| dtype_uint64
| dtype_float64
| dtype_bool
| dtype_datetime64
| dtype_object.

(** A column label: a string, or a position when pandas numbers the
    columns itself. *)
Inductive label :=
| LStr (s : string)
| LInt (n : Z).

(** [str(col)]. *)
Definition label_str (col : label) : string :=
  match col with
  | LStr s => s
  | LInt n => pretty n
  end.

(** A DataFrame: column labels, the dtype of each column, and the rows in
    order (the index is never written out). *)
Record DataFrame := {
  df_columns : list label;
  df_dtypes : list dtype;
  df_rows : list (list pyval)
}.

(** [len(df)]. *)
Definition df_len (df : DataFrame) : nat := length (df_rows df).

(** [df.empty]: some axis has length 0. *)
Definition df_empty (df : DataFrame) : bool :=
  bool_decide (df_len df = 0) || bool_decide (length (df_columns df) = 0).

(** [df.take(indices)]. *)
Definition df_take (indices : list nat) (df : DataFrame) : DataFrame :=
  {| df_columns := df_columns df;
     df_dtypes := df_dtypes df;
     df_rows := omap (λ i, df_rows df !! i) indices |}.

(** [df.columns = new_columns]. *)
Definition df_set_columns (new_columns : list label) (df : DataFrame) : DataFrame :=
  {| df_columns := new_columns; df_dtypes := df_dtypes df; df_rows := df_rows df |}.

(** The list handed to [pd.DataFrame] for a parsed JSON value, lines
    285-298: a list as it is; the value under the key of a one-key dict, as
    it is when it is a list and as a single record otherwise; any other dict
    as a single record; [ValueError] for anything else. *)
Definition json_records (json_data : json) : result (list json) :=
  match json_data with
  | JList items => Ok items
  | JDict [(key, JList items)] => Ok items
  | JDict [(key, value)] => Ok [value]
  | JDict _ => Ok [json_data]
  | _ => Raise (ValueError "Unsupported JSON structure")
  end.

(** The same branches in [get_file_info] and [preview_uploaded_file], lines
    435-445: they have no [else], so for any other value [df] is unbound
    when it is read. *)
Definition json_records_info (json_data : json) : result (list json) :=
  match json_data with
  | JList items => Ok items
  | JDict [(key, JList items)] => Ok items
  | JDict [(key, value)] => Ok [value]
  | JDict _ => Ok [json_data]
  | _ => Raise (UnboundLocalError "df")
  end.

(** The shapes of a parsed JSON value. *)
Definition array_shape (json_data : json) : bool :=
  match json_data with JList _ => true | _ => false end.
Definition object_shape (json_data : json) : bool :=
  match json_data with JDict _ => true | _ => false end.
Definition array_of_objects (json_data : json) : bool :=
  match json_data with JList items => forallb object_shape items | _ => false end.
Definition single_key_array_of_objects (json_data : json) : bool :=
  match json_data with JDict [(_, value)] => array_of_objects value | _ => false end.

(** The shapes the specification says are the supported ones. *)
Definition claimed_supported (json_data : json) : bool :=
  array_of_objects json_data || single_key_array_of_objects json_data
  || object_shape json_data.

(** ** The libraries the helpers call *)

Class Libraries := {
  (** numpy's generator state, [np.random.RandomState(seed)], and
      [rs.choice(n_rows, size=n, replace=False)], which gives the positions
      drawn and the state it leaves *)
  rng : Type;
  np_RandomState : Z → rng;
  rs_choice : rng → nat → nat → list nat * rng;
  (** [content.decode('utf-8')] then [pd.read_csv], or [json.loads] *)
  pd_read_csv : string → string + DataFrame;
  json_loads : string → string + json;
  (** [pd.DataFrame(records)] *)
  pd_DataFrame : list json → string + DataFrame;
  (** the exception [df.to_sql(table_name, engine, if_exists='replace',
      index=False)] raises, if it raises one *)
  to_sql_raises : string → DataFrame → option string;
  (** the tables the database holds after a call of [to_sql] that raised,
      given the ones it held: by then the engine has made the file, and
      [if_exists='replace'] may have dropped or replaced the table *)
  to_sql_partial : string → DataFrame → gmap string DataFrame → gmap string DataFrame;
  (** the name [tempfile.NamedTemporaryFile(delete=False, suffix='.db')]
      picks, given the files there are *)
  temp_name : gset string → string;
  (** [str(x)] of a float *)
  float_str : spec_float → string
}.

(** What [rs.choice] is documented to give without replacement: [n]
    positions below [n_rows]. *)
Class ChoiceLaws `{Libraries} := {
  choice_length rs n_rows n :
    n ≤ n_rows → length (rs_choice rs n_rows n).1 = n;
  choice_range rs n_rows n :
    n ≤ n_rows → Forall (λ i, i < n_rows) (rs_choice rs n_rows n).1
}.

(** A Streamlit uploaded file: every helper seeks to the start before it
    reads, so the position is left out. *)
Record UploadedFile := {
  uf_name : string;
  uf_content : string;
  uf_size : nat
}.

(** A call into pandas that the helper makes. *)
Inductive call :=
| CallSample (n : Z) (random_state : option Z)
| CallToSql (path table_name : string).

(** The state around a call: numpy's global generator, the database files
    there are (each a map from table names to frames), and the pandas calls
    made so far. *)
Record world `{Libraries} := {
  np_random : rng;
  files : gmap string (gmap string DataFrame);
  calls : list call
}.

(** ["sample_size or original_row_count"]. *)
Definition sample_size_or (sample_size : option Z) (row_count : Z) : Z :=
  match sample_size with
  | Some n => if (n =? 0)%Z then row_count else n
  | None => row_count
  end.

Section ingestion.
Context `{Libraries}.

(** A step of a helper: from the state before it, its outcome and the
    state after it. *)
Definition Py (A : Type) : Type := world → result A * world.

#[export] Instance Py_ret : MRet Py := λ A a w, (Ok a, w).
#[export] Instance Py_bind : MBind Py := λ A B f step w,
  match step w with
  | (Ok a, w) => f a w
  | (Raise e, w) => (Raise e, w)
  | (OutOfFuel, w) => (OutOfFuel, w)
  end.

(** A step that leaves the state alone. *)
Definition lift {A} (r : result A) : Py A := λ w, (r, w).

(** [raise e]. *)
Definition raise {A} (e : exn) : Py A := lift (Raise e).

(** [try: body] with [except Exception as e: handler]. *)
Definition try_except {A} (body : Py A) (handler : exn → Py A) : Py A := λ w,
  match body w with
  | (Raise e, w) => handler e w
  | out => out
  end.

Definition inspect {A} (f : world → A) : Py A := λ w, (Ok (f w), w).
Definition update (f : world → world) : Py unit := λ w, (Ok (), f w).

Definition set_files
    (f : gmap string (gmap string DataFrame) → gmap string (gmap string DataFrame))
    (w : world) : world :=
  {| np_random := np_random w; files := f (files w); calls := calls w |}.

Definition set_np_random (rs : rng) (w : world) : world :=
  {| np_random := rs; files := files w; calls := calls w |}.

Definition record_call (c : call) (w : world) : world :=
  {| np_random := np_random w; files := files w; calls := calls w ++ [c] |}.

(** [df.sample(n=n, random_state=random_state)] of pandas: the generator
    is a new one seeded with [random_state] when that is given, numpy's
    global one otherwise; [n] positions are drawn without replacement and
    the rows at them taken. *)
Definition df_sample (n : Z) (random_state : option Z) (df : DataFrame) : Py DataFrame :=
  update (record_call (CallSample n random_state));;
  if (n <? 0)%Z then
    raise (LibraryError "A negative number of rows requested. Please provide `n` >= 0.")
  else if (Z.of_nat (df_len df) <? n)%Z then
    raise (LibraryError "Cannot take a larger sample than population when 'replace=False'")
  else
    match random_state with
    | Some seed =>
        let rs := np_RandomState seed in
        mret (df_take (rs_choice rs (df_len df) (Z.to_nat n)).1 df)
    | None =>
        rs ← inspect np_random;
        let drawn := rs_choice rs (df_len df) (Z.to_nat n) in
        update (set_np_random drawn.2);;
        mret (df_take drawn.1 df)
    end.

(** Lines 260-301: the frame read from the file, by its extension. *)
Definition read_uploaded (uploaded_file : UploadedFile) : result DataFrame :=
  if PyStr.endswith ".csv" (uf_name uploaded_file) then
    of_lib (pd_read_csv (uf_content uploaded_file))
  else if PyStr.endswith ".json" (uf_name uploaded_file) then
    json_data ← of_lib (json_loads (uf_content uploaded_file));
    records ← json_records json_data;
    of_lib (pd_DataFrame records)
  else
    Raise (ValueError ("Unsupported file type: " +:+ uf_name uploaded_file)).

(** [sample_size and len(df) > sample_size], line 310. *)
Definition wants_sample (sample_size : option Z) (df : DataFrame) : bool :=
  match sample_size with
  | Some n => negb (n =? 0)%Z && (n <? Z.of_nat (df_len df))%Z
  | None => false
  end.

(** Lines 305-312: the emptiness check, then the sample. *)
Definition check_and_sample (sample_size : option Z) (df : DataFrame) : Py DataFrame :=
  if df_empty df then
    raise (ValueError "The uploaded file contains no data")
  else if wants_sample sample_size df then
    df_sample (default 0%Z sample_size) (Some 42%Z) df
  else
    mret df.

(** Lines 314-370: the column names are sanitized. *)
Definition rename_columns (df : DataFrame) : result DataFrame :=
  new_columns ← of_fuel (sanitize_columns (label_str <$> df_columns df));
  Ok (df_set_columns (LStr <$> new_columns) df).

(** Lines 258-370, the body of the [try] up to the frame that is written
    out. *)
Definition ingest_frame (uploaded_file : UploadedFile) (sample_size : option Z) : Py DataFrame :=
  df ← lift (read_uploaded uploaded_file);
  df ← check_and_sample sample_size df;
  lift (rename_columns df).

(** [df.to_sql(table_name, engine, if_exists='replace', index=False)] on
    the database file at [path]: a call that returns has put the frame
    under [table_name]; a call that raises leaves the file as pandas had
    it by then. *)
Definition to_sql (df : DataFrame) (table_name path : string) : Py unit :=
  update (record_call (CallToSql path table_name));;
  match to_sql_raises table_name df with
  | Some msg =>
      update (set_files (λ fs,
        <[path := to_sql_partial table_name df (default ∅ (fs !! path))]> fs));;
      raise (LibraryError msg)
  | None =>
      update (set_files (λ fs, <[path := <[table_name := df]> (default ∅ (fs !! path))]> fs))
  end.

(** [create_sqlite_from_uploaded_file], lines 238-387: the temporary file
    is made, the frame is built and written to it and its path returned;
    an exception on the way removes the file and is raised again. *)
Definition create_sqlite_from_uploaded_file (uploaded_file : UploadedFile)
    (table_name : string) (sample_size : option Z) : Py string :=
  temp_db_pth ← inspect (λ w, temp_name (dom (files w)));
  update (set_files (λ fs, <[temp_db_pth := ∅]> fs));;
  try_except
    (df ← ingest_frame uploaded_file sample_size;
     to_sql df table_name temp_db_pth;;
     mret temp_db_pth)
    (λ e,
     update (set_files (λ fs, delete temp_db_pth fs));;
     raise e).

(** The table a call leaves behind: the frame stored under [table_name]
    in the file whose path the call returned. *)
Definition table_written (table_name : string)
    (out : result string * world) : result (option DataFrame) :=
  path ← out.1;
  Ok (files out.2 !! path ≫= λ db, db !! table_name).

(** The frame after the emptiness check and the sample, as a function of
    the frame read and [sample_size] alone: the generator is the one seeded
    with 42. *)
Definition sampled_frame (sample_size : option Z) (df : DataFrame) : result DataFrame :=
  if df_empty df then Raise (ValueError "The uploaded file contains no data")
  else if wants_sample sample_size df then
    let n := default 0%Z sample_size in
    if (n <? 0)%Z then
      Raise (LibraryError "A negative number of rows requested. Please provide `n` >= 0.")
    else
      Ok (df_take (rs_choice (np_RandomState 42) (df_len df) (Z.to_nat n)).1 df)
  else Ok df.

(** The frame that is written out, as a function of the file and
    [sample_size] alone. *)
Definition ingested_frame (uploaded_file : UploadedFile)
    (sample_size : option Z) : result DataFrame :=
  df ← read_uploaded uploaded_file;
  df ← sampled_frame sample_size df;
  rename_columns df.

(** What [get_file_info] returns: the dict of a file it read, the dict of
    an exception it caught, or [None]. [size_mb] is [size / (1024 * 1024)].*)
Inductive file_info :=
| InfoDict (type : string) (n_rows n_columns : nat) (column_names : list label) (size_mb : Q)
| ErrorDict (error : exn) (size_mb : Q)
| ReturnsNone.

Definition size_mb (uploaded_file : UploadedFile) : Q :=
  Qmake (Z.of_nat (uf_size uploaded_file)) 1048576.

(** The body of the [try] of [get_file_info], lines 395-453: [None] when
    control reaches the end of the [if]/[elif] without a [return]. *)
Definition get_file_info_try (uploaded_file : UploadedFile) : result file_info :=
  if PyStr.endswith ".csv" (uf_name uploaded_file) then
    df ← of_lib (pd_read_csv (uf_content uploaded_file));
    Ok (InfoDict "CSV" (df_len df) (length (df_columns df)) (df_columns df)
          (size_mb uploaded_file))
  else if PyStr.endswith ".json" (uf_name uploaded_file) then
    json_data ← of_lib (json_loads (uf_content uploaded_file));
    records ← json_records_info json_data;
    df ← of_lib (pd_DataFrame records);
    Ok (InfoDict "JSON" (df_len df) (length (df_columns df)) (df_columns df)
          (size_mb uploaded_file))
  else
    Ok ReturnsNone.

(** [get_file_info], lines 390-460. *)
Definition get_file_info (uploaded_file : UploadedFile) : result file_info :=
  match get_file_info_try uploaded_file with
  | Ok info => Ok info
  | Raise e => Ok (ErrorDict e (size_mb uploaded_file))
  | OutOfFuel => OutOfFuel
  end.

(** ** [generate_insert_sql]: the text of one value, lines 160-173 *)

(** The branch of the [if]/[elif] chain a value takes. *)
Inductive insert_branch :=
| BranchNull
| BranchStr
| BranchNumber
| BranchBool
| BranchOther.

Definition insert_branch_of (value : pyval) : insert_branch :=
  if pd_isna value then BranchNull
  else if isinstance value [ClsStr] then BranchStr
  else if isinstance value [ClsInt; ClsFloat] then BranchNumber
  else if isinstance value [ClsBool] then BranchBool
  else BranchOther.

(** [str(value)]. *)
Definition py_str (value : pyval) : string :=
  match value with
  | PyNone => "None"
  | PyBool b => if b then "True" else "False"
  | PyInt n => pretty n
  | PyFloat x => float_str x
  | PyStr s => s
  | PyObject _ _ text => text
  end.

(** [bool(value)] of a [bool]. *)
Definition py_truth (value : pyval) : bool :=
  match value with
  | PyBool b => b
  | _ => true
  end.

Definition quoted (s : string) : string :=
  "'" +:+ PyStr.replace_with "'" "''" s +:+ "'".

Definition insert_value (value : pyval) : string :=
  match insert_branch_of value with
  | BranchNull => "NULL"
  | BranchStr => quoted (py_str value)
  | BranchNumber => py_str value
  | BranchBool => if py_truth value then "1" else "0"
  | BranchOther => quoted (py_str value)
  end.

(** One record, line 175: [f"({', '.join(record_values)})"]. *)
Definition insert_record (row : list pyval) : string :=
  "(" +:+ PyStr.join ", " (insert_value <$> row) +:+ ")".

End ingestion.

(** ** [generate_create_table_sql], lines 127-149 *)

Definition is_integer_dtype (d : dtype) : bool :=
  match d with dtype_int64 | dtype_uint64 => true | _ => false end.
Definition is_float_dtype (d : dtype) : bool :=
  match d with dtype_float64 => true | _ => false end.
Definition is_bool_dtype (d : dtype) : bool :=
  match d with dtype_bool => true | _ => false end.
Definition is_datetime64_any_dtype (d : dtype) : bool :=
  match d with dtype_datetime64 => true | _ => false end.

(** Lines 135-144. *)
Definition sql_type (d : dtype) : string :=
  if is_integer_dtype d then "INTEGER"
  else if is_float_dtype d then "REAL"
  else if is_bool_dtype d then "INTEGER"
  else if is_datetime64_any_dtype d then "DATE"
  else "TEXT".

Definition newline : string := String (ascii_of_nat 10) "".

(** Lines 130-149, for a frame whose column labels are distinct (so that
    [df[col]] is a column). *)
Definition generate_create_table_sql (df : DataFrame) (table_name : string) : string :=
  let columns :=
    (λ '(col, d), "    " +:+ label_str col +:+ " " +:+ sql_type d)
      <$> zip (df_columns df) (df_dtypes df) in
  "CREATE TABLE " +:+ table_name +:+ " (" +:+ newline
    +:+ PyStr.join ("," +:+ newline) columns +:+ newline +:+ ")".

(** The cells of the column at position [i], from the first row down. *)
Definition column_values (df : DataFrame) (i : nat) : list pyval :=
  omap (λ row, row !! i) (df_rows df).




(** ** A small stand-in for the libraries

    A reader of comma-separated lines that keeps every cell as a string, a
    JSON reader that knows two texts, a frame constructor that makes one
    row of nulls per record, and a generator that draws the last [n]
    positions. It only serves to run the helpers on concrete files. *)

Definition stub_read_csv (content : string) : string + DataFrame :=
  match PyStr.split "010" content with
  | header :: lines =>
      if PyStr.truthy header then
        inr {| df_columns := LStr <$> PyStr.split "," header;
               df_dtypes := (λ _, dtype_object) <$> PyStr.split "," header;
               df_rows := (λ line, PyStr <$> PyStr.split "," line) <$> lines |}
      else inl "No columns to parse from file"
  | [] => inl "No columns to parse from file"
  end.

Definition stub_json_loads (content : string) : string + json :=
  if decide (content = "5") then inr (JInt 5)
  else if decide (content = "[]") then inr (JList [])
  else inl "Expecting value".

Definition stub_DataFrame (records : list json) : string + DataFrame :=
  inr {| df_columns := [LInt 0];
         df_dtypes := [dtype_object];
         df_rows := (λ _, [PyNone]) <$> records |}.

Definition stub_libraries : Libraries := {|
  rng := nat;
  np_RandomState seed := Z.to_nat seed;
  rs_choice rs n_rows n := (seq (n_rows - n) n, S rs);
  pd_read_csv := stub_read_csv;
  json_loads := stub_json_loads;
  pd_DataFrame := stub_DataFrame;
  to_sql_raises _ _ := None;
  to_sql_partial _ _ db := db;
  temp_name _ := "/tmp/tmp0.db";
  float_str _ := "nan"
|}.

Definition stub_world : @world stub_libraries :=
  @Build_world stub_libraries 0 ∅ [].

(** A file of three rows under the header [2023 Q1 (Revenue),a b,a-b], and
    one with the header alone. *)
Definition three_rows_csv : UploadedFile :=
  {| uf_name := "data.csv";
     uf_content := "2023 Q1 (Revenue),a b,a-b" +:+ newline +:+ "1,2,3"
                   +:+ newline +:+ "4,5,6" +:+ newline +:+ "7,8,9";
     uf_size := 43 |}.

Definition header_only_csv : UploadedFile :=
  {| uf_name := "empty.csv"; uf_content := "name,qty"; uf_size := 8 |}.

Definition scalar_json : UploadedFile :=
  {| uf_name := "value.json"; uf_content := "5"; uf_size := 1 |}.

Definition three_rows_frame : DataFrame :=
  {| df_columns := [LStr "2023 Q1 (Revenue)"; LStr "a b"; LStr "a-b"];
     df_dtypes := [dtype_object; dtype_object; dtype_object];
     df_rows := [[PyStr "1"; PyStr "2"; PyStr "3"];
                 [PyStr "4"; PyStr "5"; PyStr "6"];
                 [PyStr "7"; PyStr "8"; PyStr "9"]] |}.

(** * More of the code *)

(** ** [generate_insert_sql], lines 152-194 *)

Definition dquote : string := String "034"%char "".

(** [range(0, stop, step)] for a positive [step]. *)
Definition py_range_step (stop step : nat) : list nat :=
  (λ k, k * step) <$> seq 0 ((stop + step - 1) / step).

(** [l[i:j]] for [0 <= i <= j]. *)
Definition py_slice {A} (l : list A) (i j : nat) : list A :=
  take (j - i) (drop i l).

(** Lines 177-185: [records[i:i + chunk_size]] for each [i] of the range. *)
Definition record_chunks (records : list string) : list (list string) :=
  let chunk_size := 100 in
  (λ i, py_slice records i (i + chunk_size)) <$> py_range_step (length records) chunk_size.

(** Lines 185-190: the statement of one chunk. *)
Definition insert_statement (table_name columns : string) (chunk : list string) : string :=
  let values_str := PyStr.join ("," +:+ newline +:+ "    ") chunk in
  "conn.execute(text(" +:+ dquote +:+ dquote +:+ dquote +:+ newline
  +:+ "            INSERT INTO " +:+ table_name +:+ " (" +:+ columns +:+ ") VALUES " +:+ newline
  +:+ "            " +:+ values_str +:+ newline
  +:+ "        " +:+ dquote +:+ dquote +:+ dquote +:+ "))".

Definition is_str_label (col : label) : bool :=
  match col with LStr _ => true | LInt _ => false end.

(** [', '.join(df.columns)], line 181: [str.join] raises [TypeError] at the
    first label that is not a string. *)
Definition join_columns (columns : list label) : result string :=
  match list_find (λ col, is_str_label col = false) columns with
  | Some (i, _) =>
      Raise (LibraryError
        ("sequence item " +:+ pretty i +:+ ": expected str instance, int found"))
  | None => Ok (PyStr.join ", " (label_str <$> columns))
  end.

(** The values of each row as [df.iterrows()] yields them. They need not
    be the cells the frame stores: a row comes as a Series of one dtype,
    so that an integer beside a float comes as a float, and cells of
    numeric columns come as numpy scalars. *)
Class Iterrows := {
  df_iterrows : DataFrame → list (list pyval)
}.

(** [generate_insert_sql], lines 152-194. *)
Definition generate_insert_sql `{Libraries} `{Iterrows} (df : DataFrame)
    (table_name : string) : result string :=
  let records := insert_record <$> df_iterrows df in
  columns ← join_columns (df_columns df);
  Ok (PyStr.join (newline +:+ newline)
        (insert_statement table_name columns <$> record_chunks records)).

(** How SQL reads the body of a string literal, after its opening quote:
    two quotes stand for one, a single quote ends the literal. The value
    read and the text left after the closing quote. *)
Fixpoint sql_literal_body (s : string) : option (string * string) :=
  match s with
  | "" => None
  | String c s' =>
      if Ascii.eqb c "'" then
        match s' with
        | String c' s'' =>
            if Ascii.eqb c' "'"
            then (λ p, (String "'" p.1, p.2)) <$> sql_literal_body s''
            else Some ("", s')
        | "" => Some ("", "")
        end
      else (λ p, (String c p.1, p.2)) <$> sql_literal_body s'
  end.

(** How SQL reads a string literal at the start of a text. *)
Definition sql_read_literal (s : string) : option (string * string) :=
  match s with
  | String c s' => if Ascii.eqb c "'" then sql_literal_body s' else None
  | "" => None
  end.

(** ** [preview_uploaded_file], lines 463-517 *)

(** [df.head(n)]: the first [n] rows, or all but the last [-n] for a
    negative [n]. *)
Definition df_head (n : Z) (df : DataFrame) : DataFrame :=
  {| df_columns := df_columns df;
     df_dtypes := df_dtypes df;
     df_rows :=
       if (0 <=? n)%Z then take (Z.to_nat n) (df_rows df)
       else take (df_len df - Z.to_nat (- n)) (df_rows df) |}.

(** What [preview_uploaded_file] returns: a frame, the text
    [f"Error previewing file: {str(e)}"] of an exception it caught, or
    [None]. *)
Inductive preview :=
| PreviewFrame (df : DataFrame)
| PreviewError (error : exn)
| PreviewNone.

(** The body of the [try], lines 468-514. *)
Definition preview_uploaded_file_try `{Libraries} (uploaded_file : UploadedFile)
    (num_rows : Z) : result preview :=
  if PyStr.endswith ".csv" (uf_name uploaded_file) then
    df ← of_lib (pd_read_csv (uf_content uploaded_file));
    Ok (PreviewFrame (df_head num_rows df))
  else if PyStr.endswith ".json" (uf_name uploaded_file) then
    json_data ← of_lib (json_loads (uf_content uploaded_file));
    records ← json_records_info json_data;
    df ← of_lib (pd_DataFrame records);
    Ok (PreviewFrame (df_head num_rows df))
  else
    Ok PreviewNone.

Definition preview_uploaded_file `{Libraries} (uploaded_file : UploadedFile)
    (num_rows : Z) : result preview :=
  match preview_uploaded_file_try uploaded_file num_rows with
  | Ok p => Ok p
  | Raise e => Ok (PreviewError e)
  | OutOfFuel => OutOfFuel
  end.

(** ** [create_sqlite_file_directly], lines 197-235 *)

(** The text of the file at a path, as [open(file_path, 'r')] and
    [pd.read_csv(file_path)] read it, or the message of the exception they
    raise. *)
Class Disk := {
  file_text : string → string + string
}.

(** [col.replace(' ', '_').replace('-', '_').replace('.', '_')], lines 37,
    99 and 224. *)
Definition simple_clean (col : string) : string :=
  let col := PyStr.replace " " "_" col in
  let col := PyStr.replace "-" "_" col in
  let col := PyStr.replace "." "_" col in
  col.

(** The comprehension of lines 224-225 over [df.columns]: a label that is
    not a string has no [replace]. *)
Definition simple_clean_columns (columns : list label) : result (list label) :=
  if forallb is_str_label columns then
    Ok ((λ col, LStr (simple_clean (label_str col))) <$> columns)
  else
    Raise (LibraryError "'int' object has no attribute 'replace'").

(** Lines 203-214: the frame read from the path, by its extension. *)
Definition read_path `{Libraries} `{Disk} (file_path : string) : result DataFrame :=
  if PyStr.endswith ".csv" file_path then
    content ← of_lib (file_text file_path);
    of_lib (pd_read_csv content)
  else if PyStr.endswith ".json" file_path then
    content ← of_lib (file_text file_path);
    data ← of_lib (json_loads content);
    match data with
    | JList items => of_lib (pd_DataFrame items)
    | _ => of_lib (pd_DataFrame [data])
    end
  else
    Raise (ValueError "Unsupported file format. Use .csv or .json").

Definition create_sqlite_file_directly `{Libraries} `{Disk} (file_path output_db_path : string)
    (table_name : string) (sample_size : Z) : Py string :=
  df ← lift (read_path file_path);
  df ← (if (sample_size <? Z.of_nat (df_len df))%Z
        then df_sample sample_size (Some 42%Z) df
        else mret df);
  columns ← lift (simple_clean_columns (df_columns df));
  to_sql (df_set_columns columns df) table_name output_db_path;;
  mret output_db_path.

(** A disk that holds the file of three rows at [/data/three.csv]. *)
Definition stub_disk : Disk := {|
  file_text path :=
    if decide (path = "/data/three.csv") then inr (uf_content three_rows_csv)
    else inl "No such file or directory"
|}.

(** ** The conversion of an upload in app.py, lines 130-200 *)

(** Lines 152-158: the value the sample-size input starts with, for a file
    of [rows] rows. *)
Definition default_sample_value (rows : Z) : Z :=
  let default_sample := Z.min rows 10000 in
  if (10000 <? rows)%Z then default_sample else 0%Z.

(** Lines 160-163: the number of records the sidebar says will be used. *)
Definition announced_records (rows sample_size : Z) : Z :=
  if (0 <? sample_size)%Z then sample_size else rows.

(** Lines 169-173: the call behind the Convert button. *)
Definition convert_to_sqlite `{Libraries} (uploaded_file : UploadedFile)
    (table_name : string) (sample_size : Z) : Py string :=
  create_sqlite_from_uploaded_file uploaded_file table_name
    (if (0 <? sample_size)%Z then Some sample_size else None).

(** ** The query history of app.py, lines 406-426 *)

(** [l[-n:]] for a positive [n]. *)
Definition py_last {A} (n : nat) (l : list A) : list A :=
  drop (length l - n) l.

(** Lines 425-426, after a query that ran. *)
Definition add_to_history (query : string) (query_history : list string) : list string :=
  if decide (query ∈ query_history) then query_history
  else query_history ++ [query].

(** The history after the queries of [ran] ran, in that order, from the
    empty history of lines 21-22. *)
Definition history_after (ran : list string) : list string :=
  foldl (λ query_history query, add_to_history query query_history) [] ran.

(** Lines 411-413: the buttons of the history, as the number in the label,
    the index in the key and the query the button restores. *)
Definition history_buttons (query_history : list string) : list (nat * nat * string) :=
  imap (λ i hist_query, (length query_history - i, i, hist_query))
    (reverse (py_last 5 query_history)).

(** ** Chat messages of the Cohere client *)

Record message := {
  role : string;
  content : string
}.

Definition user (text : string) : message := {| role := "user"; content := text |}.
Definition assistant (text : string) : message :=
  {| role := "assistant"; content := text |}.

(** ** sql_gen.py *)

Module SqlGen.

(** [st.session_state] of the script. *)
Record session_state := {
  contextual_counter : nat;
  messages : list message
}.

(** Lines 13-16. *)
Definition initial : session_state :=
  {| contextual_counter := 0; messages := [] |}.

(** Lines 36-42. *)
Definition system_message : string :=
  newline
  +:+ "    ## Task and Context" +:+ newline
  +:+ "    You are an assistant who assist new SQL programmers identify relationships in a dataset."
  +:+ newline
  +:+ "    " +:+ newline
  +:+ "    ## Style Guide" +:+ newline
  +:+ "    Try to return the best fit SQL query as much as possible. Be succinct and straight to the point."
  +:+ newline
  +:+ "    ".

(** An event of the stream [co.chat_stream] returns. *)
Inductive event :=
| ContentDelta (text : string)
| OtherEvent.

(** What a call of [co.chat_stream] does: the events it yields, and the
    exception that ends it, if one does. *)
Record stream := {
  events : list event;
  raised : option string
}.

(** Lines 68-74. *)
Definition full_response (evs : list event) : string :=
  foldl (λ text ev, match ev with ContentDelta delta => text +:+ delta | OtherEvent => text end)
    "" evs.

(** Lines 44-79, the body of the [if]: the messages sent and the state
    left. *)
Definition submit (query : string) (reply : stream) (s : session_state)
    : list message * session_state :=
  let msgs := messages s ++ [user query] in
  let counter := contextual_counter s + 1 in
  let '(msgs, counter) := if 5 <=? counter then ([], 0) else (msgs, counter) in
  let complied_messages := user system_message :: msgs in
  match raised reply with
  | None =>
      (complied_messages,
       {| contextual_counter := counter;
          messages := msgs ++ [assistant (full_response (events reply))] |})
  | Some _ =>
      (complied_messages, {| contextual_counter := counter; messages := msgs |})
  end.

(** One run of the script: [st.button("Submit") and query]. *)
Definition rerun (submitted : bool) (query : string) (reply : stream) (s : session_state)
    : option (list message) * session_state :=
  if submitted && PyStr.truthy query then
    let out := submit query reply s in (Some out.1, out.2)
  else (None, s).

(** The state after a sequence of runs. *)
Definition session_after (runs : list (bool * string * stream)) : session_state :=
  foldl (λ s '(submitted, query, reply), (rerun submitted query reply s).2) initial runs.

(** The runs that submitted a query. *)
Definition submits (runs : list (bool * string * stream)) : nat :=
  length (List.filter (λ '(submitted, query, _), submitted && PyStr.truthy query) runs).

End SqlGen.

(** ** helper/insight_gen.py: the conversation history *)

Module InsightGen.

Record session_state := {
  contextual_counter : nat;
  ai_messages : list message
}.

(** [initialize_session_state], lines 14-19. *)
Definition initial : session_state :=
  {| contextual_counter := 0; ai_messages := [] |}.

(** [_manage_conversation_history], lines 132-140. *)
Definition _manage_conversation_history (s : session_state) : session_state :=
  let counter := contextual_counter s + 1 in
  if 10 <=? counter then
    {| contextual_counter := 0; ai_messages := py_last 2 (ai_messages s) |}
  else
    {| contextual_counter := counter; ai_messages := ai_messages s |}.

(** Lines 109-115: the messages for the API and the state when they are
    sent. *)
Definition api_messages (full_prompt prompt : string) (s : session_state)
    : list message * session_state :=
  let s := _manage_conversation_history s in
  let s := {| contextual_counter := contextual_counter s;
              ai_messages := ai_messages s ++ [user prompt] |} in
  (user full_prompt :: py_last 4 (ai_messages s), s).

(** What [generate_response] returns: the reply, the text for a missing
    API key, or the text of an exception. *)
Inductive response :=
| Reply (text : string)
| NoApiKey
| ErrorResponse (error : string).

(** [generate_response], lines 45-130. [full_prompt] is the text lines
    53-106 build from the prompt and the current context, or the exception
    they raise; [chat] is what [self.client.chat] and the reading of its
    response give for the messages sent. *)
Definition generate_response (client : bool) (full_prompt : string + string)
    (prompt : string) (chat : list message → string + string) (s : session_state)
    : response * session_state :=
  if negb client then (NoApiKey, s)
  else
    match full_prompt with
    | inl error => (ErrorResponse error, s)
    | inr full_prompt =>
        let '(msgs, s) := api_messages full_prompt prompt s in
        match chat msgs with
        | inl error => (ErrorResponse error, s)
        | inr assistant_response =>
            (Reply assistant_response,
             {| contextual_counter := contextual_counter s;
                ai_messages := ai_messages s ++ [assistant assistant_response] |})
        end
    end.

(** What acts on the history: a call of [generate_response], or the
    button of [display_chat_history], lines 199-203. *)
Inductive action :=
| Generate (client : bool) (full_prompt : string + string) (prompt : string)
    (chat : list message → string + string)
| ClearChatHistory.

Definition act (s : session_state) (a : action) : session_state :=
  match a with
  | Generate client full_prompt prompt chat =>
      (generate_response client full_prompt prompt chat s).2
  | ClearChatHistory => initial
  end.

Definition session_after (actions : list action) : session_state :=
  foldl act initial actions.

(** [display_chat_history], line 188: the messages shown. *)
Definition recent_messages (s : session_state) : list message :=
  py_last 6 (ai_messages s).

End InsightGen.

(** ** helper/visualization_helper.py: the suggestions *)

#[global] Instance label_eq_dec : EqDecision label.
Proof. solve_decision. Defined.

(** [series.nunique()] of pandas, on the values of a column. *)
Class SeriesStats := {
  nunique : list pyval → nat
}.

(** [df.select_dtypes(include=...).columns.tolist()]. *)
Definition select_dtypes (include : dtype → bool) (df : DataFrame) : list label :=
  (filter (λ p, include p.2 = true) (zip (df_columns df) (df_dtypes df))).*1.

(** [np.number], ['object'] or ['category'], and ['datetime64']. *)
Definition is_number (d : dtype) : bool :=
  match d with dtype_int64 | dtype_uint64 | dtype_float64 => true | _ => false end.
Definition is_object (d : dtype) : bool :=
  match d with dtype_object => true | _ => false end.
Definition is_datetime64 (d : dtype) : bool :=
  match d with dtype_datetime64 => true | _ => false end.

(** The positions of a label among the columns, from position [i] on. *)
Fixpoint label_positions (col : label) (columns : list label) (i : nat) : list nat :=
  match columns with
  | [] => []
  | c :: columns =>
      if decide (c = col) then i :: label_positions col columns (S i)
      else label_positions col columns (S i)
  end.

(** Lines 31-32, [unique_count = df[col].nunique()] with the test
    [unique_count > 20]: under a label that two columns carry, [df[col]]
    is a frame, [unique_count] a series, and its test raises. *)
Definition high_cardinality `{SeriesStats} (df : DataFrame) (col : label) : result bool :=
  match label_positions col (df_columns df) 0 with
  | [i] => Ok (20 <? nunique (column_values df i))
  | _ =>
      Raise (ValueError
        "The truth value of a Series is ambiguous. Use a.empty, a.bool(), a.item(), a.any() or a.all().")
  end.

(** The loop of lines 30-35: the columns of high and of low cardinality. *)
Fixpoint cardinality_split `{SeriesStats} (df : DataFrame) (columns : list label)
    : result (list label * list label) :=
  match columns with
  | [] => Ok ([], [])
  | col :: columns =>
      high ← high_cardinality df col;
      rest ← cardinality_split df columns;
      Ok (if high : bool then (col :: rest.1, rest.2) else (rest.1, col :: rest.2))
  end.

Record analysis := {
  shape : nat * nat;
  numeric_columns : list label;
  categorical_columns : list label;
  datetime_columns : list label;
  high_cardinality_cols : list label;
  low_cardinality_cols : list label
}.

(** [analyze_dataframe_for_viz], lines 15-37: [None] stands for the dict
    with the key [error]. *)
Definition analyze_dataframe_for_viz `{SeriesStats} (df : DataFrame)
    : result (option analysis) :=
  if df_empty df then Ok None
  else
    let categorical := select_dtypes is_object df in
    split ← cardinality_split df categorical;
    Ok (Some {| shape := (df_len df, length (df_columns df));
                numeric_columns := select_dtypes is_number df;
                categorical_columns := categorical;
                datetime_columns := select_dtypes is_datetime64 df;
                high_cardinality_cols := split.1;
                low_cardinality_cols := split.2 |}).

(** A suggestion, by its type and its columns; the title and the
    description, which no test reads, are left out. *)
Inductive suggestion :=
| SummaryStats
| Distribution (column : label)
| Correlation
| BarChart (column : label)
| Scatter (x_column y_column : label).


(** Lines 263-273. *)
Definition scatter_suggestions (numeric : list label) : list suggestion :=
  if 2 <=? length numeric then
    mjoin (imap (λ i x_col, (λ y_col, Scatter x_col y_col) <$> py_slice numeric (i + 1) (i + 3))
             (take 2 numeric))
  else [].

(** Lines 224-273 of [suggest_visualizations], on the numeric columns and
    the columns of low cardinality of the analysis. *)
Definition suggestions_of (numeric low_cardinality : list label) : list suggestion :=
  (if bool_decide (numeric = []) then [] else [SummaryStats])
  ++ (Distribution <$> take 5 numeric)
  ++ (if 1 <? length numeric then [Correlation] else [])
  ++ (BarChart <$> take 3 low_cardinality)
  ++ scatter_suggestions numeric.

(** [suggest_visualizations], lines 216-275. *)
Definition suggest_visualizations `{SeriesStats} (df : DataFrame) : result (list suggestion) :=
  analysis ← analyze_dataframe_for_viz df;
  match analysis with
  | None => Ok []
  | Some analysis =>
      Ok (suggestions_of (numeric_columns analysis) (low_cardinality_cols analysis))
  end.



(** A [nunique] for the examples: the number of values. *)
Definition stub_series_stats : SeriesStats := {| nunique := length |}.

(** A frame of two numeric columns and one of strings. *)
Definition sales_frame : DataFrame :=
  {| df_columns := [LStr "qty"; LStr "price"; LStr "region"];
     df_dtypes := [dtype_int64; dtype_float64; dtype_object];
     df_rows := [[PyInt 1; PyInt 5; PyStr "north"];
                 [PyInt 2; PyInt 7; PyStr "south"]] |}.

(** ** [csv_to_sqlite_sample_data] and [json_to_sqlite_sample_data], lines 10-124 *)

(** [pd.DataFrame(data)] for a dict [data]. *)
Class PandasDict := {
  pd_DataFrame_dict : list (string * json) → string + DataFrame
}.

(** The f-string of lines 47-60 and 109-122. *)
Definition sample_data_code (create_table_sql insert_sql : string) : string :=
  newline
  +:+ "    # Sample data creation code for your Streamlit app" +:+ newline
  +:+ "    # Replace the existing sample data section with this code" +:+ newline
  +:+ "    " +:+ newline
  +:+ "    # Create sample table" +:+ newline
  +:+ "    conn.execute(text(" +:+ dquote +:+ dquote +:+ dquote +:+ newline
  +:+ "    " +:+ create_table_sql +:+ newline
  +:+ "    " +:+ dquote +:+ dquote +:+ dquote +:+ "))" +:+ newline
  +:+ "    " +:+ newline
  +:+ "    # Insert sample data" +:+ newline
  +:+ "    " +:+ insert_sql +:+ newline
  +:+ "    " +:+ newline
  +:+ "    conn.commit()" +:+ newline
  +:+ "    ".

(** [generate_create_table_sql] on any frame: under a label that two
    columns carry, [df[col]] is a frame, which has no [dtype]. *)
Definition create_table_sql_of (df : DataFrame) (table_name : string) : result string :=
  if decide (NoDup (df_columns df)) then Ok (generate_create_table_sql df table_name)
  else Raise (LibraryError "'DataFrame' object has no attribute 'dtype'").

(** Lines 28-62, and the same code at lines 90-124: from the frame read to
    the code returned. *)
Definition sqlite_sample_data `{Libraries} `{Iterrows} (df : DataFrame)
    (table_name : string) (sample_size : Z) : Py string :=
  df_sample ← (if (sample_size <? Z.of_nat (df_len df))%Z
               then df_sample sample_size (Some 42%Z) df
               else mret df);
  columns ← lift (simple_clean_columns (df_columns df_sample));
  let df_sample := df_set_columns columns df_sample in
  create_table_sql ← lift (create_table_sql_of df_sample table_name);
  insert_sql ← lift (generate_insert_sql df_sample table_name);
  mret (sample_data_code create_table_sql insert_sql).

Definition csv_to_sqlite_sample_data `{Libraries} `{Iterrows} `{Disk}
    (csv_file_path : string) (table_name : string) (sample_size : Z) : Py string :=
  df ← lift (content ← of_lib (file_text csv_file_path);
             of_lib (pd_read_csv content));
  sqlite_sample_data df table_name sample_size.

(** [pd.DataFrame(data[key])], line 82, by what [data[key]] is. *)
Definition pd_DataFrame_value `{Libraries} `{PandasDict} (value : json) : result DataFrame :=
  match value with
  | JList items => of_lib (pd_DataFrame items)
  | JDict items => of_lib (pd_DataFrame_dict items)
  | JNull => Ok {| df_columns := []; df_dtypes := []; df_rows := [] |}
  | _ => Raise (ValueError "DataFrame constructor not properly called!")
  end.

(** Lines 72-86. *)
Definition read_json_path `{Libraries} `{Disk} `{PandasDict} (json_file_path : string)
    : result DataFrame :=
  content ← of_lib (file_text json_file_path);
  data ← of_lib (json_loads content);
  match data with
  | JList items => of_lib (pd_DataFrame items)
  | JDict [(key, value)] => pd_DataFrame_value value
  | JDict _ => of_lib (pd_DataFrame [data])
  | _ => Raise (ValueError "Unsupported JSON structure")
  end.

Definition json_to_sqlite_sample_data `{Libraries} `{Iterrows} `{Disk} `{PandasDict}
    (json_file_path : string) (table_name : string) (sample_size : Z) : Py string :=
  df ← lift (read_json_path json_file_path);
  sqlite_sample_data df table_name sample_size.

(** A dict of one key. *)
Definition one_key_dict (data : json) : bool :=
  match data with
  | JDict [_] => true
  | _ => false
  end.

(** The text of a JSON file that holds two records of one string each. *)
Definition names_json : string :=
  "[{" +:+ dquote +:+ "name" +:+ dquote +:+ ": " +:+ dquote +:+ "Ada" +:+ dquote
  +:+ "}, {" +:+ dquote +:+ "name" +:+ dquote +:+ ": " +:+ dquote +:+ "O'Brien"
  +:+ dquote +:+ "}]".

(** A disk with a file of two rows of text whose names stay apart when
    cleaned, and the JSON file of two records. *)
Definition staff_disk : Disk := {|
  file_text path :=
    if decide (path = "/data/staff.csv")
    then inr ("full name,pay.grade" +:+ newline +:+ "Ada,high" +:+ newline
              +:+ "O'Brien,low")
    else if decide (path = "/data/names.json") then inr names_json
    else inl "No such file or directory"
|}.

Definition stub_pandas_dict : PandasDict := {|
  pd_DataFrame_dict _ := inl "If using all scalar values, you must pass an index"
|}.

(** The frames of the two files after the cleaning of their names. *)
Definition staff_frame : DataFrame :=
  {| df_columns := [LStr "full_name"; LStr "pay_grade"];
     df_dtypes := [dtype_object; dtype_object];
     df_rows := [[PyStr "Ada"; PyStr "high"]; [PyStr "O'Brien"; PyStr "low"]] |}.

Definition names_frame : DataFrame :=
  {| df_columns := [LStr "name"];
     df_dtypes := [dtype_object];
     df_rows := [[PyStr "Ada"]; [PyStr "O'Brien"]] |}.

(** In a frame whose cells are all strings, [df.iterrows()] yields the
    cells as they are. *)
Definition stub_iterrows : Iterrows := {| df_iterrows := df_rows |}.

(** The value under [key] in a record, as a cell: a string as it is,
    anything else or no value as a missing one. *)
Definition record_cell (record : json) (key : string) : pyval :=
  match record with
  | JDict fields =>
      match list_find (λ field, field.1 = key) fields with
      | Some (_, (_, JStr s)) => PyStr s
      | _ => PyNone
      end
  | _ => PyNone
  end.

(** The stand-in libraries with a JSON reader that knows the file of two
    records and the empty object, and a frame constructor for records of
    strings: the columns
    are the keys of the first record, and there is none when there is no
    record. *)
Definition records_libraries : Libraries := {|
  rng := nat;
  np_RandomState seed := Z.to_nat seed;
  rs_choice rs n_rows n := (seq (n_rows - n) n, S rs);
  pd_read_csv := stub_read_csv;
  json_loads content :=
    if decide (content = names_json)
    then inr (JList [JDict [("name", JStr "Ada")]; JDict [("name", JStr "O'Brien")]])
    else if decide (content = "{}") then inr (JDict [])
    else inl "Expecting value";
  pd_DataFrame records :=
    match records with
    | JDict fields :: _ =>
        inr {| df_columns := LStr <$> fields.*1;
               df_dtypes := (λ _, dtype_object) <$> fields;
               df_rows := (λ record, record_cell record <$> fields.*1) <$> records |}
    | [] => inr {| df_columns := []; df_dtypes := []; df_rows := [] |}
    | _ => inl "records of other values are left out"
    end;
  to_sql_raises _ _ := None;
  to_sql_partial _ _ db := db;
  temp_name _ := "/tmp/tmp0.db";
  float_str _ := "nan"
|}.

(** ** The quick actions of a converted file in app.py, lines 213-224 *)

(** [d[key] = value] on a dict kept as the list of its items, in the order
    of their first insertion. *)
Definition py_dict_set {V} (key : string) (value : V) (d : list (string * V))
    : list (string * V) :=
  if decide (key ∈ d.*1) then
    (λ item, if decide (item.1 = key) then (key, value) else item) <$> d
  else d ++ [(key, value)].

(** A dict display: its items are set from left to right. *)
Definition py_dict {V} (items : list (string * V)) : list (string * V) :=
  foldl (λ d item, py_dict_set item.1 item.2 d) [] items.

(** Lines 214-219. *)
Definition converted_sample_queries (table_name : string) : list (string * string) :=
  py_dict
    [("Show all " +:+ table_name, "SELECT * FROM " +:+ table_name +:+ " LIMIT 100;");
     ("Count " +:+ table_name +:+ " records",
      "SELECT COUNT(*) as total_records FROM " +:+ table_name +:+ ";");
     ("Show " +:+ table_name +:+ " structure", "PRAGMA table_info(" +:+ table_name +:+ ");");
     ("Sample 10 records",
      "SELECT * FROM " +:+ table_name +:+ " ORDER BY RANDOM() LIMIT 10;")].

(** Lines 221-223: the key of each button and the query it sets. *)
Definition converted_buttons (table_name : string) : list (string * string) :=
  (λ item, ("converted_" +:+ item.1, item.2)) <$> converted_sample_queries table_name.

(** ** Tactics *)

(** Case analysis on the eight bits of a character. *)
Ltac each_ascii c :=
  destruct c as [[] [] [] [] [] [] [] []].

(** Unfolds the steps of [Py]. *)
Ltac unfold_py :=
  unfold mbind, mret, Py_bind, Py_ret, lift, raise, update, inspect, try_except in *;
  simpl in *.

(** * Facts and claims *)

(** ** Facts about the string methods *)

Section string_facts.
Implicit Types (s p : string) (c sep : ascii) (P : ascii → Prop).

Lemma map_ext_all (f g : ascii → ascii) P s :
  (∀ c, P c → f c = g c) → PyStr.all P s → PyStr.map f s = PyStr.map g s.
Proof.
  intros Hfg. induction s as [|c s IH]; simpl; [done|].
  intros [Hc Hs]. by rewrite (Hfg c Hc), IH.
Qed.

Lemma map_id s : PyStr.map id s = s.
Proof. induction s as [|c s IH]; simpl; [done|]. by rewrite IH. Qed.

Lemma all_True s : PyStr.all (λ _, True) s.
Proof. induction s; simpl; auto. Qed.

Lemma all_impl P (Q : ascii → Prop) s :
  (∀ c, P c → Q c) → PyStr.all P s → PyStr.all Q s.
Proof. intros HPQ. induction s; simpl; [done|]. intros [??]; auto. Qed.

Lemma all_app P s1 s2 :
  PyStr.all P (s1 +:+ s2) ↔ PyStr.all P s1 ∧ PyStr.all P s2.
Proof.
  induction s1 as [|c s1 IH]; simpl; [tauto|].
  change (String c s1 +:+ s2) with (String c (s1 +:+ s2)). simpl. tauto.
Qed.

Lemma all_map P (f : ascii → ascii) s :
  (∀ c, P (f c)) → PyStr.all P (PyStr.map f s).
Proof. intros Hf. induction s; simpl; auto. Qed.

Lemma truthy_ne s : PyStr.truthy s = true ↔ s ≠ "".
Proof. destruct s; simpl; split; intros; congruence. Qed.

Lemma split_not_nil sep s : PyStr.split sep s ≠ [].
Proof.
  destruct s as [|c s]; simpl; [done|].
  destruct (Ascii.eqb c sep); [done|]. by destruct (PyStr.split sep s).
Qed.

(** Joining the fragments of a split with the separator gives the string
    back. *)
Lemma join_split sep s : PyStr.join (String sep "") (PyStr.split sep s) = s.
Proof.
  induction s as [|c s IH]; simpl; [done|].
  pose proof (split_not_nil sep s) as Hne.
  destruct (Ascii.eqb_spec c sep) as [->|Hc].
  - destruct (PyStr.split sep s) as [|p ps]; [done|].
    change (PyStr.join (String sep "") ("" :: p :: ps))
      with (String sep (PyStr.join (String sep "") (p :: ps))).
    by rewrite IH.
  - destruct (PyStr.split sep s) as [|p ps]; [done|].
    destruct ps as [|q ps]; simpl in *; by rewrite <-IH.
Qed.

Lemma split_no_sep sep s :
  PyStr.all (λ c, c ≠ sep) s → PyStr.split sep s = [s].
Proof.
  induction s as [|c s IH]; simpl; [done|]. intros [Hc Hs].
  destruct (Ascii.eqb_spec c sep); [done|]. by rewrite IH.
Qed.

Lemma split_app_sep sep s1 s2 :
  PyStr.split sep (s1 +:+ String sep s2) = PyStr.split sep s1 ++ PyStr.split sep s2.
Proof.
  induction s1 as [|c s1 IH].
  - change ("" +:+ String sep s2) with (String sep s2). simpl.
    by rewrite Ascii.eqb_refl.
  - change (String c s1 +:+ String sep s2) with (String c (s1 +:+ String sep s2)).
    simpl. rewrite IH. destruct (Ascii.eqb c sep); [done|].
    pose proof (split_not_nil sep s1). by destruct (PyStr.split sep s1).
Qed.

(** The fragments of a split hold no separator, and only characters of
    the string. *)
Lemma split_parts sep P s :
  PyStr.all P s →
  Forall (λ p, PyStr.all (λ c, c ≠ sep) p ∧ PyStr.all P p) (PyStr.split sep s).
Proof.
  induction s as [|c s IH]; simpl.
  - intros _. by repeat constructor.
  - intros [Hc Hs]. specialize (IH Hs).
    destruct (Ascii.eqb_spec c sep) as [->|Hne].
    + constructor; [by simpl|done].
    + destruct (PyStr.split sep s) as [|p ps]; [by repeat constructor|].
      inversion IH as [|?? [??] ?]; subst. constructor; [|done]. simpl. tauto.
Qed.

(** Splitting a join of separator-free fragments gives the fragments
    back. *)
Lemma split_join sep (parts : list string) :
  parts ≠ [] → Forall (PyStr.all (λ c, c ≠ sep)) parts →
  PyStr.split sep (PyStr.join (String sep "") parts) = parts.
Proof.
  induction parts as [|p [|q ps] IH]; [done|..]; intros _ Hall.
  - simpl. apply split_no_sep. by inversion Hall.
  - inversion Hall as [|?? Hp Hrest]; subst.
    change (PyStr.join (String sep "") (p :: q :: ps))
      with (p +:+ String sep "" +:+ PyStr.join (String sep "") (q :: ps)).
    change (String sep "" +:+ ?s) with (String sep s).
    rewrite split_app_sep, (split_no_sep _ p Hp), IH; done.
Qed.

Lemma all_join P sep_s (parts : list string) :
  PyStr.all P sep_s → Forall (PyStr.all P) parts →
  PyStr.all P (PyStr.join sep_s parts).
Proof.
  intros Hsep. induction parts as [|p [|q ps] IH]; intros Hall.
  - done.
  - simpl. by inversion Hall.
  - inversion Hall; subst.
    change (PyStr.join sep_s (p :: q :: ps))
      with (p +:+ sep_s +:+ PyStr.join sep_s (q :: ps)).
    rewrite !all_app. auto.
Qed.

End string_facts.

Section decimal_facts.

Lemma pretty_N_char_digit x : digit (pretty_N_char x).
Proof. unfold pretty_N_char, digit. by repeat case_match. Qed.

Lemma pretty_N_go_digits x s :
  PyStr.all digit s → PyStr.all digit (pretty_N_go x s).
Proof.
  revert s. induction (N.lt_wf_0 x) as [x _ IH]; intros s Hs.
  destruct (decide (x = 0%N)) as [->|Hx]; [by rewrite pretty_N_go_0|].
  rewrite pretty_N_go_step by lia. apply IH.
  - apply N.div_lt; lia.
  - simpl. split; [apply pretty_N_char_digit|done].
Qed.

Lemma pretty_N_go_not_empty x s : s ≠ "" → pretty_N_go x s ≠ "".
Proof.
  revert s. induction (N.lt_wf_0 x) as [x _ IH]; intros s Hs.
  destruct (decide (x = 0%N)) as [->|Hx]; [by rewrite pretty_N_go_0|].
  rewrite pretty_N_go_step by lia. apply IH; [apply N.div_lt; lia|done].
Qed.

Lemma of_nat_digits i : PyStr.all digit (PyStr.of_nat i).
Proof.
  unfold PyStr.of_nat, pretty, pretty_nat, pretty, pretty_N.
  case_decide; [by vm_compute|]. by apply pretty_N_go_digits.
Qed.

Lemma of_nat_not_empty i : PyStr.of_nat i ≠ "".
Proof.
  unfold PyStr.of_nat, pretty, pretty_nat, pretty, pretty_N.
  case_decide; [done|].
  rewrite pretty_N_go_step by lia. by apply pretty_N_go_not_empty.
Qed.

Lemma of_nat_inj i j : PyStr.of_nat i = PyStr.of_nat j → i = j.
Proof. apply pretty_nat_inj. Qed.

Lemma suffixed_inj col i j : suffixed col i = suffixed col j → i = j.
Proof.
  unfold suffixed. intros H.
  apply (inj (String.app col)) in H. apply (inj (String.app "_")) in H.
  by apply of_nat_inj.
Qed.

End decimal_facts.

(** ** Steps 1 to 3 of the sanitization *)

Section sanitize_facts.
Implicit Types (s col : string) (cols : list string).

Lemma replace_sub old s : PyStr.replace old "_" s = PyStr.map (sub old) s.
Proof. induction s as [|c s IH]; simpl; [done|]. by rewrite IH. Qed.

Lemma replace_map_sub old (f : ascii → ascii) s :
PyStr.replace old "_" (PyStr.map f s) = PyStr.map (λ c, sub old (f c)) s.
Proof. induction s as [|c s IH]; simpl; [done|]. by rewrite IH. Qed.

Lemma sub_chain_blocklist c :
sub "|" (sub "=" (sub "+" (sub "*" (sub "&" (sub "^" (sub "%" (sub "$"
 (sub "#" (sub "@" (sub "!" (sub "?" (sub "," (sub ";" (sub ":" (sub "}"
 (sub "{" (sub "]" (sub "[" (sub "\" (sub "/" (sub ")" (sub "(" (sub "."
 (sub "-" (sub " " c)))))))))))))))))))))))))
= blocklist_to_underscore c.
Proof. each_ascii c; vm_compute; reflexivity. Qed.

(** The chain of replacements is the character-wise replacement of the
    blocklist. *)
Lemma replace_special_map s :
replace_special s = PyStr.map blocklist_to_underscore s.
Proof.
cbv beta zeta delta [replace_special].
rewrite (replace_sub " " s). repeat rewrite replace_map_sub.
apply (map_ext_all _ _ (λ _, True)); [|apply all_True].
intros c _. apply sub_chain_blocklist.
Qed.

Lemma blocklist_to_underscore_allowed c : allowed (blocklist_to_underscore c).
Proof.
  unfold blocklist_to_underscore, allowed.
  destruct (PyStr.mem c blocklist) eqn:Hc; [by vm_compute|done].
Qed.

Lemma blocklist_to_underscore_id c : allowed c → blocklist_to_underscore c = c.
Proof. unfold blocklist_to_underscore, allowed. by intros ->. Qed.

Lemma replace_special_allowed s : PyStr.all allowed (replace_special s).
Proof.
  rewrite replace_special_map. apply all_map, blocklist_to_underscore_allowed.
Qed.

Lemma digit_allowed c : digit c → allowed c ∧ c ≠ "_"%char.
Proof.
  unfold digit, allowed. intros Hd.
  each_ascii c; vm_compute in Hd; try discriminate Hd; by vm_compute.
Qed.

Lemma list_filter_Forall {A} (f : A → bool) (P : A → Prop) (l : list A) :
  Forall P l → Forall (λ x, P x ∧ f x = true) (List.filter f l).
Proof.
  induction 1 as [|x l Hx Hl IH]; simpl; [constructor|].
  destruct (f x) eqn:Hf; [constructor|]; auto.
Qed.

Lemma list_filter_all {A} (f : A → bool) (l : list A) :
  Forall (λ x, f x = true) l → List.filter f l = l.
Proof. induction 1 as [|x l Hx Hl IH]; simpl; [done|]. by rewrite Hx, IH. Qed.

(** Step 2 gives the empty string or a clean name. *)
Lemma remove_empty_parts_clean s :
  PyStr.all allowed s →
  remove_empty_parts s = "" ∨ clean_name (remove_empty_parts s).
Proof.
  intros Hs. unfold remove_empty_parts.
  pose proof (list_filter_Forall PyStr.truthy _ _ (split_parts "_" allowed s Hs)) as Hparts.
  destruct (List.filter PyStr.truthy (PyStr.split "_" s)) as [|p ps] eqn:Hf; [by left|].
  right. split.
  - apply all_join; [by vm_compute|].
    eapply Forall_impl; [exact Hparts|]. by intros q [[_ ?] _].
  - rewrite split_join; [|done|].
    + eapply Forall_impl; [exact Hparts|]. intros q [_ Hq]. by apply truthy_ne.
    + eapply Forall_impl; [exact Hparts|]. by intros q [[? _] _].
Qed.

Lemma clean_name_not_empty s : clean_name s → s ≠ "".
Proof. intros [_ Hs] ->. simpl in Hs. by inversion Hs. Qed.

Lemma clean_name_column i : clean_name ("column_" +:+ PyStr.of_nat i).
Proof.
  pose proof (of_nat_digits i) as Hd. split.
  - apply all_app. split; [by vm_compute|].
    eapply all_impl; [|exact Hd]. intros c. apply digit_allowed.
  - change ("column_" +:+ PyStr.of_nat i) with ("column" +:+ String "_" (PyStr.of_nat i)).
    rewrite split_app_sep, (split_no_sep _ (PyStr.of_nat i)).
    + repeat constructor; [done|apply of_nat_not_empty].
    + eapply all_impl; [|exact Hd]. intros c. apply digit_allowed.
Qed.

Lemma clean_name_suffixed col k : clean_name col → clean_name (suffixed col k).
Proof.
  pose proof (of_nat_digits k) as Hd. intros [Hall Hparts]. unfold suffixed. split.
  - rewrite !all_app. split_and!; [done|by vm_compute|].
    eapply all_impl; [|exact Hd]. intros c. apply digit_allowed.
  - change ("_" +:+ PyStr.of_nat k) with (String "_" (PyStr.of_nat k)).
    rewrite split_app_sep, (split_no_sep _ (PyStr.of_nat k)).
    + apply Forall_app. split; [done|]. repeat constructor. apply of_nat_not_empty.
    + eapply all_impl; [|exact Hd]. intros c. apply digit_allowed.
Qed.

(** Steps 1 to 3 leave a clean name as it is. *)
Lemma clean_name_fixed i s :
  clean_name s → name_empty_column i (remove_empty_parts (replace_special s)) = s.
Proof.
  intros Hs. pose proof (clean_name_not_empty s Hs) as Hne. destruct Hs as [Hall Hparts].
  assert (replace_special s = s) as ->.
  { rewrite replace_special_map. transitivity (PyStr.map id s); [|apply map_id].
    apply (map_ext_all _ _ allowed); [|done]. apply blocklist_to_underscore_id. }
  assert (remove_empty_parts s = s) as ->.
  { unfold remove_empty_parts. rewrite list_filter_all; [apply (join_split "_")|].
    eapply Forall_impl; [exact Hparts|]. intros p. apply truthy_ne. }
  unfold name_empty_column. by case_decide.
Qed.

(** Steps 1 to 3 give a clean name, whatever the name was. *)
Lemma clean_name_step3 i s :
  clean_name (name_empty_column i (remove_empty_parts (replace_special s))).
Proof.
  unfold name_empty_column. case_decide as He.
  - apply clean_name_column.
  - by destruct (remove_empty_parts_clean _ (replace_special_allowed s)).
Qed.

Lemma clean_column_names_lookup cols i :
  clean_column_names cols !! i
  = (λ s, name_empty_column i (remove_empty_parts (replace_special s))) <$> cols !! i.
Proof.
  unfold clean_column_names.
  rewrite list_lookup_imap, !list_lookup_fmap. by destruct (cols !! i).
Qed.

Lemma clean_column_names_clean cols : Forall clean_name (clean_column_names cols).
Proof.
  apply Forall_lookup. intros i s. rewrite clean_column_names_lookup.
  intros (s' & _ & ->)%fmap_Some. apply clean_name_step3.
Qed.

Lemma clean_column_names_fixed cols :
  Forall clean_name cols → clean_column_names cols = cols.
Proof.
  intros Hcols. apply list_eq. intros i. rewrite clean_column_names_lookup.
  destruct (cols !! i) as [s|] eqn:Hi; simpl; [|done].
  f_equal. apply clean_name_fixed. by eapply Forall_lookup_1.
Qed.

End sanitize_facts.

(** ** Step 4: duplicate names *)

Section dedup_facts.
Implicit Types (col : string) (cols acc : list string) (seen : gset string).

Lemma free_suffix_Some fuel seen col c n :
  free_suffix fuel seen col c = Some n →
  ∃ k, c ≤ k ∧ n = suffixed col k ∧ (n ∉ seen) ∧
       ∀ j, c ≤ j < k → suffixed col j ∈ seen.
Proof.
  revert c. induction fuel as [|fuel IH]; intros c; simpl; [done|].
  case_decide as Hin.
  - intros (k & Hk & -> & Hfree & Hused)%IH. exists k. split_and!; [lia|done..|].
    intros j Hj. destruct (decide (j = c)) as [->|]; [done|]. apply Hused. lia.
  - intros [= <-]. exists c. split_and!; [done..|]. intros j Hj. lia.
Qed.

Lemma free_suffix_None fuel seen col c :
  free_suffix fuel seen col c = None →
  ∀ j, c ≤ j < c + fuel → suffixed col j ∈ seen.
Proof.
  revert c. induction fuel as [|fuel IH]; intros c; simpl; [intros _ j; lia|].
  case_decide as Hin; [|done]. intros Hnone j Hj.
  destruct (decide (j = c)) as [->|]; [done|]. apply (IH _ Hnone). lia.
Qed.

(** The inner loop ends within the fuel it is given. *)
Lemma free_suffix_total seen col :
  is_Some (free_suffix (S (size seen)) seen col 1).
Proof.
  destruct (free_suffix _ seen col 1) as [n|] eqn:Hf; [by eexists|]. exfalso.
  pose proof (free_suffix_None _ _ _ _ Hf) as Hall.
  assert (suffixed col <$> seq 1 (S (size seen)) ⊆+ elements seen) as Hsub.
  { apply NoDup_submseteq.
    - apply NoDup_fmap_2_strong; [|apply NoDup_seq].
      intros i j _ _. apply suffixed_inj.
    - intros x (j & -> & Hj%elem_of_seq)%list_elem_of_fmap.
      apply elem_of_elements, Hall. lia. }
  apply submseteq_length in Hsub. rewrite length_fmap, length_seq in Hsub.
  unfold size, set_size in Hsub. simpl in Hsub. lia.
Qed.

(** The loop returns, and each name it gives follows [dedup_step] for the
    names given before it. *)
Lemma dedup_loop_spec cols seen acc :
  (∀ x, x ∈ seen ↔ x ∈ acc) →
  ∃ out, dedup_loop cols seen acc = Some (acc ++ out) ∧
    length out = length cols ∧
    ∀ i col, cols !! i = Some col →
      ∃ o, out !! i = Some o ∧ dedup_step (acc ++ take i out) col o.
Proof.
  revert seen acc. induction cols as [|col cols IH]; intros seen acc Hinv; cbn [dedup_loop].
  { exists []. by rewrite app_nil_r. }
  assert (∀ o, dedup_step acc col o →
    (∀ x, x ∈ ({[o]} ∪ seen : gset string) ↔ x ∈ acc ++ [o]) →
    ∃ out, dedup_loop cols ({[o]} ∪ seen) (acc ++ [o]) = Some (acc ++ out) ∧
      length out = S (length cols) ∧
      ∀ i c, (col :: cols) !! i = Some c →
        ∃ o', out !! i = Some o' ∧ dedup_step (acc ++ take i out) c o') as Hnext.
  { intros o Hstep Hinv'.
    destruct (IH _ _ Hinv') as (out & -> & Hlen & Hout).
    exists (o :: out). rewrite <-app_assoc. split_and!; [done|by simpl; f_equal|].
    intros [|i] c; simpl.
    - intros [= <-]. exists o. by rewrite app_nil_r.
    - intros (o' & ? & Hstep')%Hout. exists o'. split; [done|].
      by rewrite <-app_assoc in Hstep'. }
  assert (∀ o, ∀ x, x ∈ ({[o]} ∪ seen : gset string) ↔ x ∈ acc ++ [o]) as Hinv'.
  { intros o x. rewrite elem_of_union, elem_of_singleton, elem_of_app, list_elem_of_singleton.
    specialize (Hinv x). tauto. }
  case_decide as Hin.
  - destruct (free_suffix_total seen col) as [new_col Hfree]. rewrite Hfree. cbn [mbind option_bind].
    apply free_suffix_Some in Hfree as (k & Hk & -> & Hnotin & Hused).
    apply Hnext; [|done]. right. split; [by apply Hinv|].
    exists k. split_and!; [done..|by rewrite <-Hinv|]. intros j Hj. by apply Hinv, Hused.
  - apply Hnext; [|done]. left. by rewrite <-Hinv.
Qed.

(** A sequence without duplicates passes through unchanged. *)
Lemma dedup_loop_NoDup cols seen acc :
  NoDup cols → (∀ x, x ∈ cols → x ∉ seen) →
  dedup_loop cols seen acc = Some (acc ++ cols).
Proof.
  revert seen acc. induction cols as [|col cols IH]; intros seen acc Hnd Hfresh; simpl.
  { by rewrite app_nil_r. }
  apply NoDup_cons in Hnd as [Hcol Hnd].
  rewrite decide_False by (apply Hfresh; left).
  rewrite IH, <-?app_assoc; [done..|].
  intros x Hx. rewrite not_elem_of_union, not_elem_of_singleton. split.
  - by intros ->.
  - apply Hfresh. by right.
Qed.

Lemma remove_duplicate_columns_spec cols :
  ∃ out, remove_duplicate_columns cols = Some out ∧
    length out = length cols ∧
    ∀ i col, cols !! i = Some col →
      ∃ o, out !! i = Some o ∧ dedup_step (take i out) col o.
Proof.
  destruct (dedup_loop_spec cols ∅ []) as (out & ? & ? & ?); [set_solver|].
  by exists out.
Qed.

Lemma dedup_step_fresh earlier col o : dedup_step earlier col o → o ∉ earlier.
Proof. intros [[? ->]|[_ (k & _ & _ & ? & _)]]; done. Qed.

Lemma dedup_step_clean earlier col o :
  clean_name col → dedup_step earlier col o → clean_name o.
Proof.
  intros Hc [[? ->]|[_ (k & _ & -> & _)]]; [done|]. by apply clean_name_suffixed.
Qed.

(** A list each of whose elements is not among the ones before it has no
    duplicates. *)
Lemma NoDup_prefix_fresh (out : list string) :
  (∀ i o, out !! i = Some o → o ∉ take i out) → NoDup out.
Proof.
  intros Hfresh. apply NoDup_alt. intros i j x Hi Hj.
  destruct (Nat.lt_trichotomy i j) as [Hlt|[->|Hlt]]; [|done|].
  - destruct (Hfresh j x Hj). apply list_elem_of_lookup. exists i.
    by rewrite lookup_take_lt.
  - destruct (Hfresh i x Hi). apply list_elem_of_lookup. exists j.
    by rewrite lookup_take_lt.
Qed.

Lemma remove_duplicate_columns_NoDup cols out :
  remove_duplicate_columns cols = Some out → NoDup out.
Proof.
  destruct (remove_duplicate_columns_spec cols) as (out' & -> & Hlen & Hout).
  intros [= <-]. apply NoDup_prefix_fresh. intros i o Hi.
  destruct (cols !! i) as [col|] eqn:Hc.
  - destruct (Hout i col Hc) as (o' & ? & ?). simplify_eq.
    by eapply dedup_step_fresh.
  - apply lookup_ge_None in Hc. apply lookup_lt_Some in Hi. lia.
Qed.

Lemma remove_duplicate_columns_clean cols out :
  Forall clean_name cols → remove_duplicate_columns cols = Some out →
  Forall clean_name out.
Proof.
  destruct (remove_duplicate_columns_spec cols) as (out' & -> & Hlen & Hout).
  intros Hcols [= <-]. apply Forall_lookup. intros i o Hi.
  destruct (cols !! i) as [col|] eqn:Hc.
  - destruct (Hout i col Hc) as (o' & ? & ?). simplify_eq.
    eapply dedup_step_clean; [|done]. by eapply Forall_lookup_1.
  - apply lookup_ge_None in Hc. apply lookup_lt_Some in Hi. lia.
Qed.

End dedup_facts.

(** ** The claims about the column names *)

(** The sanitization as the specification words it (C2, steps 1 to 3). *)
Lemma name_empty_column_spec i col :
  name_empty_column i (remove_empty_parts (replace_special col)) = spec_sanitize_name i col.
Proof.
  unfold name_empty_column, spec_sanitize_name, remove_empty_parts, PyStr.of_nat.
  rewrite replace_special_map.
  assert (∀ l, List.filter PyStr.truthy l = List.filter (λ p, negb (String.eqb p "")) l) as ->.
  { intros l. induction l as [|p l IH]; simpl; [done|]. rewrite IH. by destruct p. }
  case_decide as He.
  - by rewrite He.
  - apply String.eqb_neq in He. by rewrite He.
Qed.

(** The whole sanitization returns, with distinct names that follow
    [dedup_step]. *)
Lemma sanitize_columns_spec (cols : list string) :
  ∃ out, sanitize_columns cols = Some out
    ∧ length out = length cols
    ∧ NoDup out
    ∧ ∀ i col, clean_column_names cols !! i = Some col →
        ∃ o, out !! i = Some o ∧ dedup_step (take i out) col o.
Proof.
  unfold sanitize_columns.
  destruct (remove_duplicate_columns_spec (clean_column_names cols))
    as (out & Hout & Hlen & Hsteps).
  exists out. split_and!; [done| |by eapply remove_duplicate_columns_NoDup|done].
  rewrite Hlen. unfold clean_column_names. by rewrite length_imap, !length_fmap.
Qed.

(** C3, as stated, fails: in [a, a, a_1] the second [a] becomes [a_1], so
    the first occurrence of [a_1] cannot keep its name and becomes
    [a_1_1]. *)
Lemma C3_first_occurrence_renamed :
  clean_column_names ["a"; "a"; "a_1"] = ["a"; "a"; "a_1"]
  ∧ sanitize_columns ["a"; "a"; "a_1"] = Some ["a"; "a_1"; "a_1_1"]
  ∧ ¬ claimed_dedup ["a"; "a"; "a_1"] ["a"; "a_1"; "a_1_1"].
Proof.
  split_and!; [by vm_compute..|].
  intros (_ & Hfirst & _). specialize (Hfirst 2 "a_1" eq_refl).
  assert ("a_1" ∉ take 2 ["a"; "a"; "a_1"]) as Hfresh.
  { simpl. rewrite !not_elem_of_cons. split_and!; [done..|]. apply not_elem_of_nil. }
  by specialize (Hfirst Hfresh).
Qed.

(** C3, amended. The duplicate removal returns; the names it gives are as
    many as the columns and pairwise distinct; scanning in column order, a
    sanitized name that no earlier output name equals is kept as it is, and
    a name that an earlier output name equals gets the least positive
    suffix [k] such that [name_k] is no earlier output name. *)
Theorem C3_dedup_distinct (cols : list string) :
  ∃ out, sanitize_columns cols = Some out
    ∧ length out = length cols
    ∧ NoDup out
    ∧ ∀ i col, clean_column_names cols !! i = Some col →
        ∃ o, out !! i = Some o ∧ dedup_step (take i out) col o.
Proof. apply sanitize_columns_spec. Qed.

(** C4. The sanitization returns, and applied to its own output it gives
    that output again. *)
Theorem C4_sanitize_idempotent (cols : list string) :
  ∃ out, sanitize_columns cols = Some out ∧ sanitize_columns out = Some out.
Proof.
  destruct (sanitize_columns_spec cols) as (out & Hout & _ & Hnd & _).
  exists out. split; [done|]. unfold sanitize_columns in *.
  rewrite clean_column_names_fixed.
  - apply (dedup_loop_NoDup out ∅ []); [done|]. intros x _. apply not_elem_of_empty.
  - eapply remove_duplicate_columns_clean; [|done]. apply clean_column_names_clean.
Qed.

(** ** The claims about the ingestion *)

Section ingestion_facts.
Context `{Libraries}.
Implicit Types (df : DataFrame) (w : world) (sample_size : option Z).

Lemma check_and_sample_fst sample_size df w :
  (check_and_sample sample_size df w).1 = sampled_frame sample_size df.
Proof.
  unfold check_and_sample, sampled_frame, df_sample.
  destruct (df_empty df); [done|].
  destruct (wants_sample sample_size df) eqn:Hwants; [|done].
  unfold_py. destruct (default 0%Z sample_size <? 0)%Z; [done|].
  destruct sample_size as [n|]; [|done]. simpl in *.
  apply andb_true_iff in Hwants as [_ Hlt%Z.ltb_lt].
  by rewrite (proj2 (Z.ltb_ge _ _)) by lia.
Qed.

(** The emptiness check makes no pandas call, and no step before the write
    touches the files or numpy's global generator. *)
Lemma check_and_sample_snd sample_size df w :
  files (check_and_sample sample_size df w).2 = files w
  ∧ np_random (check_and_sample sample_size df w).2 = np_random w
  ∧ (df_empty df = true → (check_and_sample sample_size df w).2 = w).
Proof.
  unfold check_and_sample, df_sample. destruct (df_empty df); [done|].
  split_and!; [| |done]; unfold_py; by repeat case_match.
Qed.

Lemma ingest_frame_fst uploaded_file sample_size w :
  (ingest_frame uploaded_file sample_size w).1 = ingested_frame uploaded_file sample_size.
Proof.
  unfold ingest_frame, ingested_frame. unfold_py.
  destruct (read_uploaded uploaded_file) as [df| |]; [|done..]. simpl.
  rewrite <-(check_and_sample_fst sample_size df w).
  by destruct (check_and_sample sample_size df w) as [[?| |] ?].
Qed.

Lemma ingest_frame_snd uploaded_file sample_size w :
  files (ingest_frame uploaded_file sample_size w).2 = files w
  ∧ np_random (ingest_frame uploaded_file sample_size w).2 = np_random w.
Proof.
  unfold ingest_frame. unfold_py.
  destruct (read_uploaded uploaded_file) as [df| |]; [|done..].
  pose proof (check_and_sample_snd sample_size df w) as (Hfiles & Hrandom & _).
  by destruct (check_and_sample sample_size df w) as [[?| |] ?].
Qed.

(** What a call returns. *)
Lemma create_fst uploaded_file table_name sample_size w :
  (create_sqlite_from_uploaded_file uploaded_file table_name sample_size w).1
  = df ← ingested_frame uploaded_file sample_size;
    match to_sql_raises table_name df with
    | Some msg => Raise (LibraryError msg)
    | None => Ok (temp_name (dom (files w)))
    end.
Proof.
  unfold create_sqlite_from_uploaded_file, to_sql. unfold_py.
  set (tmp := temp_name (dom (files w))). set (w0 := set_files _ w).
  rewrite <-(ingest_frame_fst uploaded_file sample_size w0).
  destruct (ingest_frame uploaded_file sample_size w0) as [[df| |] w1]; [|done..].
  simpl. by destruct (to_sql_raises table_name df).
Qed.

(** What a call leaves under [table_name] in the file it returns. *)
Lemma create_table_written uploaded_file table_name sample_size w :
  table_written table_name
    (create_sqlite_from_uploaded_file uploaded_file table_name sample_size w)
  = df ← ingested_frame uploaded_file sample_size;
    match to_sql_raises table_name df with
    | Some msg => Raise (LibraryError msg)
    | None => Ok (Some df)
    end.
Proof.
  unfold table_written, create_sqlite_from_uploaded_file, to_sql. unfold_py.
  set (tmp := temp_name (dom (files w))). set (w0 := set_files _ w).
  rewrite <-(ingest_frame_fst uploaded_file sample_size w0).
  destruct (ingest_frame uploaded_file sample_size w0) as [[df| |] w1]; [|done..].
  simpl. destruct (to_sql_raises table_name df); [done|].
  simpl. rewrite lookup_insert_eq. simpl. by rewrite lookup_insert_eq.
Qed.

(** A call leaves numpy's global generator as it was. *)
Lemma create_np_random uploaded_file table_name sample_size w :
  np_random (create_sqlite_from_uploaded_file uploaded_file table_name sample_size w).2
  = np_random w.
Proof.
  unfold create_sqlite_from_uploaded_file, to_sql. unfold_py.
  set (tmp := temp_name (dom (files w))). set (w0 := set_files _ w).
  pose proof (ingest_frame_snd uploaded_file sample_size w0) as [_ Hrandom].
  destruct (ingest_frame uploaded_file sample_size w0) as [[df| |] w1]; [|done..].
  simpl. by destruct (to_sql_raises table_name df).
Qed.

(** The model's loops have fuel enough: a call ends with a value or an
    exception. *)
Lemma create_returns uploaded_file table_name sample_size w :
  (create_sqlite_from_uploaded_file uploaded_file table_name sample_size w).1 ≠ OutOfFuel.
Proof.
  rewrite create_fst. unfold ingested_frame.
  destruct (read_uploaded uploaded_file) as [df| |] eqn:Hread; simpl; [|done|].
  - destruct (sampled_frame sample_size df) as [df'| |] eqn:Hsampled; simpl; [|done|].
    + unfold rename_columns.
      destruct (sanitize_columns_spec (label_str <$> df_columns df')) as (out & -> & _).
      simpl. by destruct (to_sql_raises _ _).
    + unfold sampled_frame in Hsampled. by repeat case_match.
  - unfold read_uploaded in Hread.
    destruct (PyStr.endswith ".csv" _); [by destruct (pd_read_csv _)|].
    destruct (PyStr.endswith ".json" _); [|done].
    destruct (json_loads _) as [msg|json_data]; [done|]. simpl in Hread.
    destruct (json_records json_data) as [records| |] eqn:Hrecords; simpl in Hread.
    + by destruct (pd_DataFrame records).
    + done.
    + unfold json_records in Hrecords. by repeat case_match.
Qed.

Lemma omap_lookup_length {A} (l : list A) (indices : list nat) :
  Forall (λ i, i < length l) indices →
  length (omap (λ i, l !! i) indices) = length indices.
Proof.
  induction 1 as [|i indices Hi _ IH]; cbn; [done|].
  destruct (l !! i) eqn:Hx; cbn; [by rewrite IH|].
  apply lookup_ge_None in Hx. lia.
Qed.

Lemma sampled_frame_columns sample_size df df' :
  sampled_frame sample_size df = Ok df' → df_columns df' = df_columns df.
Proof. unfold sampled_frame. repeat case_match; try done; by intros [= <-]. Qed.

(** The rows after the emptiness check and the sample. *)
Lemma sampled_frame_rows `{!ChoiceLaws} sample_size df df' :
  sampled_frame sample_size df = Ok df' →
  Z.of_nat (df_len df')
  = Z.min (Z.of_nat (df_len df)) (sample_size_or sample_size (Z.of_nat (df_len df)))
  ∧ (wants_sample sample_size df = false → df' = df).
Proof.
  unfold sampled_frame. destruct (df_empty df); [done|].
  destruct (wants_sample sample_size df) eqn:Hwants.
  - destruct sample_size as [n|]; [|done]. simpl in *.
    apply andb_true_iff in Hwants as [Hnz%negb_true_iff Hlt%Z.ltb_lt].
    destruct (n <? 0)%Z eqn:Hneg; [done|]. apply Z.ltb_ge in Hneg.
    intros [= <-]. split; [|done].
    unfold df_len at 1. simpl. rewrite omap_lookup_length.
    + rewrite choice_length by (unfold df_len in *; lia). rewrite Hnz. lia.
    + apply choice_range. unfold df_len in *. lia.
  - intros [= <-]. split; [|done].
    destruct sample_size as [n|]; simpl in *; [|lia].
    destruct (n =? 0)%Z eqn:Hz; [lia|]. simpl in Hwants. apply Z.ltb_ge in Hwants. lia.
Qed.

Lemma rename_columns_rows df df' :
  rename_columns df = Ok df' → df_rows df' = df_rows df.
Proof.
  unfold rename_columns. destruct (sanitize_columns _); simpl; [|done].
  by intros [= <-].
Qed.

Lemma result_bind_Raise {A B} (f : A → result B) (r : result A) e :
  r ≫= f = Raise e ↔ r = Raise e ∨ ∃ a, r = Ok a ∧ f a = Raise e.
Proof.
  destruct r as [a|e'|]; simpl.
  - split; [intros Hf; right; eauto|intros [?|(a' & [= <-] & ?)]; done].
  - split; [intros [= ->]; by left|intros [[= ->]|(a' & ? & _)]; done].
  - split; [done|intros [?|(a' & ? & _)]; done].
Qed.

Lemma get_file_info_unrecognized (uploaded_file : UploadedFile) :
  PyStr.endswith ".csv" (uf_name uploaded_file) = false →
  PyStr.endswith ".json" (uf_name uploaded_file) = false →
  get_file_info uploaded_file = Ok ReturnsNone.
Proof. unfold get_file_info, get_file_info_try. by intros -> ->. Qed.

End ingestion_facts.

(** C2. The three comprehensions of lines 315-352 compute, for the name at
    position [i], exactly what the specification describes: every character
    of the blocklist becomes an underscore, the non-empty fragments between
    underscores are rejoined with one underscore, and an empty result
    becomes [column_i]. The header [2023 Q1 (Revenue)] becomes
    [2023_Q1_Revenue]. Whichever extension the file has, the names of the
    frame that is written out are this sanitization (followed by the
    duplicate removal) of the names of the frame that was read. *)
Theorem C2_sanitize_matches_spec `{Libraries} (cols : list string)
    (uploaded_file : UploadedFile) (sample_size : option Z) (w : world) (out : DataFrame) :
  clean_column_names cols = imap spec_sanitize_name cols
  ∧ clean_column_names ["2023 Q1 (Revenue)"] = ["2023_Q1_Revenue"]
  ∧ ((ingest_frame uploaded_file sample_size w).1 = Ok out →
     ∃ df, read_uploaded uploaded_file = Ok df
       ∧ remove_duplicate_columns (imap spec_sanitize_name (label_str <$> df_columns df))
         = Some (label_str <$> df_columns out)).
Proof.
  assert (∀ l, clean_column_names l = imap spec_sanitize_name l) as Hspec.
  { intros l. apply list_eq. intros i.
    rewrite clean_column_names_lookup, list_lookup_imap.
    destruct (l !! i); simpl; [|done]. by rewrite name_empty_column_spec. }
  split_and!; [done|by vm_compute|].
  rewrite ingest_frame_fst. unfold ingested_frame.
  destruct (read_uploaded uploaded_file) as [df| |]; [|done..]. simpl.
  destruct (sampled_frame sample_size df) as [df'| |] eqn:Hsampled; [|done..]. simpl.
  apply sampled_frame_columns in Hsampled.
  unfold rename_columns, sanitize_columns. rewrite Hspec, Hsampled.
  destruct (remove_duplicate_columns _) as [new_columns|] eqn:Hnew; [|done].
  simpl. intros [= <-]. exists df. split; [done|]. simpl.
  rewrite Hnew, <-list_fmap_compose. f_equal. symmetry. apply list_fmap_id.
Qed.

(** C1. Two calls with the same file, table name and sample size leave the
    same table (or end in the same exception), whatever the state around
    them: numpy's global generator, the files there are and the calls made
    before. The sample is drawn from a generator seeded with 42 for the
    call, and numpy's global generator is left as it was. *)
Theorem C1_sample_reproducible `{Libraries} (uploaded_file : UploadedFile)
    (table_name : string) (sample_size : option Z) (w1 w2 : world) :
  table_written table_name
    (create_sqlite_from_uploaded_file uploaded_file table_name sample_size w1)
  = table_written table_name
      (create_sqlite_from_uploaded_file uploaded_file table_name sample_size w2)
  ∧ (ingest_frame uploaded_file sample_size w1).1
    = (ingest_frame uploaded_file sample_size w2).1
  ∧ np_random
      (create_sqlite_from_uploaded_file uploaded_file table_name sample_size w1).2
    = np_random w1.
Proof.
  split_and!.
  - by rewrite !create_table_written.
  - by rewrite !ingest_frame_fst.
  - apply create_np_random.
Qed.

(** C5. When the file reads as a frame and the call returns, the table it
    leaves has min(row count, sample_size or row count) rows; when
    [sample_size] is absent or at least the row count, its rows are the
    rows read, in their order. *)
Theorem C5_row_count `{Libraries} `{!ChoiceLaws} (uploaded_file : UploadedFile)
    (table_name : string) (sample_size : option Z) (w : world)
    (df : DataFrame) (path : string) :
  read_uploaded uploaded_file = Ok df →
  (create_sqlite_from_uploaded_file uploaded_file table_name sample_size w).1 = Ok path →
  ∃ table,
    files (create_sqlite_from_uploaded_file uploaded_file table_name sample_size w).2
      !! path ≫= (λ db, db !! table_name) = Some table
    ∧ Z.of_nat (df_len table)
      = Z.min (Z.of_nat (df_len df)) (sample_size_or sample_size (Z.of_nat (df_len df)))
    ∧ ((sample_size = None ∨ ∃ n, sample_size = Some n ∧ (Z.of_nat (df_len df) ≤ n)%Z) →
       df_rows table = df_rows df).
Proof.
  intros Hread Hpath.
  pose proof (create_table_written uploaded_file table_name sample_size w) as Hwritten.
  unfold table_written in Hwritten. rewrite Hpath in Hwritten. simpl in Hwritten.
  rewrite create_fst in Hpath. unfold ingested_frame in *. rewrite Hread in *.
  simpl in *.
  destruct (sampled_frame sample_size df) as [df'| |] eqn:Hsampled; [|done..].
  simpl in *.
  destruct (rename_columns df') as [table| |] eqn:Hrename; [|done..]. simpl in *.
  destruct (to_sql_raises table_name table); [done|].
  exists table. injection Hwritten as ->.
  apply sampled_frame_rows in Hsampled as (Hlen & Hsame).
  apply rename_columns_rows in Hrename.
  split_and!; [done|by unfold df_len in *; rewrite Hrename|].
  intros Habsent. rewrite Hrename, Hsame; [done|].
  destruct Habsent as [->|(n & -> & Hn)]; [done|]. simpl.
  apply andb_false_iff. right. apply Z.ltb_ge. lia.
Qed.

(** C6. A file that reads as a frame with no row ends the call in the
    exception [ValueError] "The uploaded file contains no data"; no pandas
    call was made on the way, neither the sample nor the write, and the
    temporary file is gone: the files are the ones there were. *)
Theorem C6_empty_source `{Libraries} (uploaded_file : UploadedFile)
    (table_name : string) (sample_size : option Z) (w : world) (df : DataFrame) :
  read_uploaded uploaded_file = Ok df →
  df_len df = 0 →
  (create_sqlite_from_uploaded_file uploaded_file table_name sample_size w).1
    = Raise (ValueError "The uploaded file contains no data")
  ∧ calls (create_sqlite_from_uploaded_file uploaded_file table_name sample_size w).2
    = calls w
  ∧ files (create_sqlite_from_uploaded_file uploaded_file table_name sample_size w).2
    = delete (temp_name (dom (files w))) (files w).
Proof.
  intros Hread Hlen.
  unfold create_sqlite_from_uploaded_file, ingest_frame, check_and_sample.
  unfold_py. rewrite Hread. unfold df_empty. rewrite Hlen. simpl.
  split_and!; [done..|]. apply delete_insert_eq.
Qed.

(** C7, on the code: for a file named [notes.txt], [get_file_info] reaches
    the end of its [if]/[elif] and returns [None], neither a dict nor an
    exception, where [create_sqlite_from_uploaded_file] raises [ValueError]
    "Unsupported file type: notes.txt" for the same file. *)
Theorem C7_unrecognized_extension_returns_none `{Libraries} (content : string)
    (size : nat) (table_name : string) (sample_size : option Z) (w : world) :
  get_file_info {| uf_name := "notes.txt"; uf_content := content; uf_size := size |}
    = Ok ReturnsNone
  ∧ (create_sqlite_from_uploaded_file
       {| uf_name := "notes.txt"; uf_content := content; uf_size := size |}
       table_name sample_size w).1
    = Raise (ValueError "Unsupported file type: notes.txt").
Proof. split; [by apply get_file_info_unrecognized|]. by rewrite create_fst. Qed.

(** C8, as stated, fails: the array [[1, 2]] is none of the three shapes,
    and it is not refused: it is handed to [pd.DataFrame] as it is. *)
Lemma C8_array_of_numbers_accepted :
  claimed_supported (JList [JInt 1; JInt 2]) = false
  ∧ json_records (JList [JInt 1; JInt 2]) = Ok [JInt 1; JInt 2]
  ∧ json_records (JList [JInt 1; JInt 2]) ≠ Raise (ValueError "Unsupported JSON structure").
Proof. done. Qed.

Lemma json_records_Raise (json_data : json) e :
  json_records json_data = Raise e ↔
  e = ValueError "Unsupported JSON structure"
  ∧ array_shape json_data = false ∧ object_shape json_data = false.
Proof.
  split.
  - destruct json_data as [| | | | |items|items]; simpl;
      try (by intros [= <-]); try done.
    destruct items as [|[key value] rest]; [done|]. by destruct value, rest.
  - intros (-> & Harray & Hobject). by destruct json_data.
Qed.

(** C8, amended. For a file with the [.json] extension whose content
    parses, the call ends in [ValueError] "Unsupported JSON structure"
    exactly when the parsed value is neither an array nor an object. An
    array gives its items as the records, whatever they are; an object with
    one key gives the items of its value when that is an array and the value
    as the one record otherwise; any other object is the one record
    itself. A value of an accepted shape is not thereby ingested: when the
    frame pandas builds from the records is empty (no row or no column, as
    for the object with no key), the call ends in [ValueError] "The
    uploaded file contains no data". *)
Theorem C8_unsupported_json_shape `{Libraries} (uploaded_file : UploadedFile)
    (table_name : string) (sample_size : option Z) (w : world) (json_data : json) :
  PyStr.endswith ".csv" (uf_name uploaded_file) = false →
  PyStr.endswith ".json" (uf_name uploaded_file) = true →
  json_loads (uf_content uploaded_file) = inr json_data →
  ((create_sqlite_from_uploaded_file uploaded_file table_name sample_size w).1
     = Raise (ValueError "Unsupported JSON structure")
   ↔ array_shape json_data = false ∧ object_shape json_data = false)
  ∧ read_uploaded uploaded_file
    = (records ← json_records json_data; of_lib (pd_DataFrame records))
  ∧ (∀ items, json_records (JList items) = Ok items)
  ∧ (∀ key items, json_records (JDict [(key, JList items)]) = Ok items)
  ∧ (∀ key value, array_shape value = false →
       json_records (JDict [(key, value)]) = Ok [value])
  ∧ (∀ items, length items ≠ 1 → json_records (JDict items) = Ok [JDict items])
  ∧ (∀ records df,
       json_records json_data = Ok records → pd_DataFrame records = inr df →
       df_empty df = true →
       (create_sqlite_from_uploaded_file uploaded_file table_name sample_size w).1
       = Raise (ValueError "The uploaded file contains no data")).
Proof.
  intros Hcsv Hjson Hloads.
  assert (read_uploaded uploaded_file
          = (records ← json_records json_data; of_lib (pd_DataFrame records))) as Hread.
  { unfold read_uploaded. by rewrite Hcsv, Hjson, Hloads. }
  split_and!; [|done|done|done| | |].
  - rewrite create_fst. unfold ingested_frame. rewrite Hread. split.
    + intros [Hraise|(df & _ & Hsql)]%result_bind_Raise.
      * apply result_bind_Raise in Hraise as [Hraise|(df & _ & Hraise)].
        { apply result_bind_Raise in Hraise as [Hraise|(records & _ & Hraise)].
          - by apply json_records_Raise in Hraise as (_ & ? & ?).
          - by destruct (pd_DataFrame records). }
        apply result_bind_Raise in Hraise as [Hraise|(df' & _ & Hraise)].
        { unfold sampled_frame in Hraise. by repeat case_match. }
        unfold rename_columns in Hraise. by destruct (sanitize_columns _).
      * by destruct (to_sql_raises table_name df).
    + intros [Harray Hobject].
      assert (json_records json_data = Raise (ValueError "Unsupported JSON structure")) as ->.
      { by apply json_records_Raise. }
      done.
  - intros key value Hvalue. by destruct value.
  - intros [|[key value] rest] Hlen; [done|]. by destruct value, rest.
  - intros records df Hrecords Hframe Hempty.
    rewrite create_fst. unfold ingested_frame. rewrite Hread, Hrecords. simpl.
    rewrite Hframe. simpl. unfold sampled_frame. by rewrite Hempty.
Qed.

(** ** The claims about the SQL text *)



(** The statement built for a frame with a text and an integer column,
    and one record. *)
Example create_table_staff :
  generate_create_table_sql
    {| df_columns := [LStr "Full_Name"; LStr "Salary"];
       df_dtypes := [dtype_object; dtype_int64];
       df_rows := [] |} "staff"
  = "CREATE TABLE staff (" +:+ newline +:+ "    Full_Name TEXT," +:+ newline
    +:+ "    Salary INTEGER" +:+ newline +:+ ")".
Proof. reflexivity. Qed.

Example insert_record_staff `{Libraries} :
  insert_record [PyStr "O'Brien"; PyInt 50000; PyNone; PyBool true]
  = "('O''Brien', 50000, NULL, True)".
Proof. reflexivity. Qed.

(** C10. No value takes the branch of [generate_insert_sql] that writes a
    boolean as 1 or 0: a boolean is an instance of [int], so it takes the
    branch before it and is written by [str], as [True] or [False] without
    quotes. *)
Theorem C10_bool_branch_unreachable `{Libraries} (value : pyval) (b : bool) :
  insert_branch_of value ≠ BranchBool
  ∧ isinstance (PyBool b) [ClsInt; ClsFloat] = true
  ∧ insert_branch_of (PyBool b) = BranchNumber
  ∧ insert_value (PyBool b) = (if b then "True" else "False")
  ∧ insert_value (PyBool b) ≠ "1"
  ∧ insert_value (PyBool b) ≠ "0".
Proof.
  split_and!; try by destruct b.
  unfold insert_branch_of.
  destruct (pd_isna value); [done|].
  destruct (isinstance value [ClsStr]); [done|].
  destruct (isinstance value [ClsInt; ClsFloat]) eqn:Hnumber; [done|].
  destruct (isinstance value [ClsBool]) eqn:Hbool; [|done].
  by destruct value.
Qed.

(** ** The claims on concrete files *)

Lemma stub_choice_laws : @ChoiceLaws stub_libraries.
Proof.
  split; simpl; intros rs n_rows n Hn.
  - apply length_seq.
  - apply Forall_forall. intros i Hi%elem_of_seq. lia.
Qed.

(** C2 on the file of three rows: the names written out are the sanitized
    names of the header. *)
Lemma C2_sanitize_matches_spec_witness :
  ∃ df, @read_uploaded stub_libraries three_rows_csv = Ok df
    ∧ remove_duplicate_columns (imap spec_sanitize_name (label_str <$> df_columns df))
      = Some (label_str <$> [LStr "2023_Q1_Revenue"; LStr "a_b"; LStr "a_b_1"]).
Proof.
  apply (@C2_sanitize_matches_spec stub_libraries [] three_rows_csv (Some 2%Z) stub_world
           {| df_columns := [LStr "2023_Q1_Revenue"; LStr "a_b"; LStr "a_b_1"];
              df_dtypes := [dtype_object; dtype_object; dtype_object];
              df_rows := [[PyStr "4"; PyStr "5"; PyStr "6"];
                          [PyStr "7"; PyStr "8"; PyStr "9"]] |}).
  vm_compute. reflexivity.
Defined.

(** C5 on the file of three rows, with a sample of two. *)
Lemma C5_row_count_witness :
  ∃ table,
    files (@create_sqlite_from_uploaded_file stub_libraries three_rows_csv "staff"
             (Some 2%Z) stub_world).2
      !! "/tmp/tmp0.db" ≫= (λ db, db !! "staff") = Some table
    ∧ Z.of_nat (df_len table)
      = Z.min (Z.of_nat (df_len three_rows_frame))
          (sample_size_or (Some 2%Z) (Z.of_nat (df_len three_rows_frame)))
    ∧ ((Some 2%Z = None
        ∨ ∃ n, Some 2%Z = Some n ∧ (Z.of_nat (df_len three_rows_frame) ≤ n)%Z) →
       df_rows table = df_rows three_rows_frame).
Proof.
  apply (@C5_row_count stub_libraries stub_choice_laws three_rows_csv "staff"
           (Some 2%Z) stub_world three_rows_frame "/tmp/tmp0.db").
  - vm_compute. reflexivity.
  - vm_compute. reflexivity.
Defined.

(** C6 on the file that holds a header alone. *)
Lemma C6_empty_source_witness :
  (@create_sqlite_from_uploaded_file stub_libraries header_only_csv "staff"
     (Some 2%Z) stub_world).1
    = Raise (ValueError "The uploaded file contains no data")
  ∧ calls (@create_sqlite_from_uploaded_file stub_libraries header_only_csv "staff"
             (Some 2%Z) stub_world).2
    = calls stub_world
  ∧ files (@create_sqlite_from_uploaded_file stub_libraries header_only_csv "staff"
             (Some 2%Z) stub_world).2
    = delete (@temp_name stub_libraries (dom (files stub_world))) (files stub_world).
Proof.
  apply (@C6_empty_source stub_libraries header_only_csv "staff" (Some 2%Z) stub_world
           {| df_columns := [LStr "name"; LStr "qty"];
              df_dtypes := [dtype_object; dtype_object];
              df_rows := [] |}).
  - vm_compute. reflexivity.
  - reflexivity.
Defined.

(** C8 on a JSON file that holds the number 5. *)
Lemma C8_unsupported_json_shape_witness :
  (@create_sqlite_from_uploaded_file stub_libraries scalar_json "staff" None stub_world).1
  = Raise (ValueError "Unsupported JSON structure").
Proof.
  apply (@C8_unsupported_json_shape stub_libraries scalar_json "staff" None stub_world
           (JInt 5)).
  - vm_compute. reflexivity.
  - vm_compute. reflexivity.
  - vm_compute. reflexivity.
  - split; reflexivity.
Defined.

(** The object with no key has an accepted shape and is still not
    ingested: pandas makes a frame of one row and no column of it. *)
Example empty_object_contains_no_data :
  (@create_sqlite_from_uploaded_file records_libraries
     {| uf_name := "empty.json"; uf_content := "{}"; uf_size := 2 |} "data" None
     (@Build_world records_libraries 0 ∅ [])).1
  = Raise (ValueError "The uploaded file contains no data").
Proof. vm_compute. reflexivity. Qed.

(** * Facts about the rest of the code *)

(** ** [generate_insert_sql] *)

Section chunk_facts.
Context {A : Type}.
Implicit Types (l : list A) (n m : nat).

Lemma concat_take_drop l n m :
  concat ((λ k, take n (drop (k * n) l)) <$> seq 0 m) = take (m * n) l.
Proof.
  induction m as [|m IH]; [done|].
  rewrite seq_S, fmap_app, concat_app, IH. simpl. rewrite app_nil_r.
  replace (n + m * n) with (m * n + n) by lia. by rewrite take_take_drop.
Qed.

Lemma py_slice_chunk l i n : py_slice l i (i + n) = take n (drop i l).
Proof. unfold py_slice. by replace (i + n - i) with n by lia. Qed.

End chunk_facts.

Lemma record_chunks_lookup (records : list string) (k : nat) :
  k < (length records + 99) / 100 →
  record_chunks records !! k = Some (take 100 (drop (k * 100) records)).
Proof.
  intros Hk. unfold record_chunks, py_range_step.
  rewrite !list_lookup_fmap.
  replace (length records + 100 - 1) with (length records + 99) by lia.
  rewrite lookup_seq_lt by done. simpl. by rewrite py_slice_chunk.
Qed.

Lemma record_chunks_length (records : list string) :
  length (record_chunks records) = (length records + 99) / 100.
Proof.
  unfold record_chunks, py_range_step. rewrite !length_fmap, length_seq.
  f_equal. lia.
Qed.

(** X1. The chunks of [generate_insert_sql] hold every record once, in
    order; there are ceil(n / 100) of them (none for an empty frame); each
    holds at least one record and at most 100, and all but the last hold
    exactly 100. *)
Theorem insert_chunks_partition (records : list string) :
  concat (record_chunks records) = records
  ∧ length (record_chunks records) = (length records + 99) / 100
  ∧ Forall (λ chunk, 1 ≤ length chunk ≤ 100) (record_chunks records)
  ∧ Forall (λ chunk, length chunk = 100)
      (take (length (record_chunks records) - 1) (record_chunks records)).
Proof.
  pose proof (Nat.div_mod_eq (length records + 99) 100) as Hdiv.
  pose proof (Nat.mod_upper_bound (length records + 99) 100 ltac:(lia)) as Hmod.
  assert (∀ k chunk, record_chunks records !! k = Some chunk →
    1 ≤ length chunk ≤ 100
    ∧ (S k < length (record_chunks records) → length chunk = 100)) as Hchunks.
  { intros k chunk Hchunk. pose proof (lookup_lt_Some _ _ _ Hchunk) as Hk.
    rewrite record_chunks_length in *.
    rewrite record_chunks_lookup in Hchunk by done. injection Hchunk as <-.
    rewrite length_take, length_drop. lia. }
  split_and!.
  - unfold record_chunks, py_range_step.
    rewrite <-list_fmap_compose.
    replace (length records + 100 - 1) with (length records + 99) by lia.
    transitivity (take ((length records + 99) / 100 * 100) records).
    + rewrite <-concat_take_drop. f_equal. apply list_fmap_ext.
      intros i x _. simpl. apply py_slice_chunk.
    + apply take_ge. lia.
  - apply record_chunks_length.
  - apply Forall_lookup. intros k chunk Hchunk. by apply (Hchunks k).
  - apply Forall_lookup. intros k chunk Hchunk.
    pose proof (lookup_lt_Some _ _ _ Hchunk) as Hk. rewrite length_take in Hk.
    rewrite lookup_take_lt in Hchunk by lia. apply (Hchunks k); [done|lia].
Qed.

Lemma append_assoc (s1 s2 s3 : string) : (s1 +:+ s2) +:+ s3 = s1 +:+ s2 +:+ s3.
Proof.
  induction s1 as [|c s1 IH]; [done|].
  change ((String c s1 +:+ s2) +:+ s3) with (String c ((s1 +:+ s2) +:+ s3)).
  change (String c s1 +:+ s2 +:+ s3) with (String c (s1 +:+ s2 +:+ s3)).
  by rewrite IH.
Qed.

Section insert_value_facts.
Context `{Libraries}.

Lemma sql_literal_body_escaped (s rest : string) :
  PyStr.startswith "'" rest = false →
  sql_literal_body (PyStr.replace_with "'" "''" s +:+ "'" +:+ rest) = Some (s, rest).
Proof.
  intros Hrest. induction s as [|c s IH].
  - change (PyStr.replace_with "'" "''" "" +:+ "'" +:+ rest) with (String "'" rest).
    destruct rest as [|c rest]; [done|].
    cbn [PyStr.startswith] in Hrest. cbn [sql_literal_body].
    rewrite Ascii.eqb_refl, Ascii.eqb_sym.
    by apply andb_false_iff in Hrest as [->|?].
  - cbn [PyStr.replace_with]. destruct (Ascii.eqb_spec c "'") as [->|Hc].
    + change (("''" +:+ ?x) +:+ ?y) with (String "'" (String "'" (x +:+ y))).
      cbn [sql_literal_body]. by rewrite !Ascii.eqb_refl, IH.
    + change (String c ?x +:+ ?y) with (String c (x +:+ y)).
      cbn [sql_literal_body]. rewrite (proj2 (Ascii.eqb_neq _ _) Hc). by rewrite IH.
Qed.

End insert_value_facts.

(** X2. A string value is written as a literal that SQL reads back as that
    string, whatever quotes it holds, and the text read ends where the
    literal ends: what follows it is left as it is. *)
Theorem insert_value_str_reads_back `{Libraries} (s rest : string) :
  PyStr.startswith "'" rest = false →
  sql_read_literal (insert_value (PyStr s) +:+ rest) = Some (s, rest).
Proof.
  intros Hrest.
  change (insert_value (PyStr s))
    with (String "'" (PyStr.replace_with "'" "''" s +:+ "'")).
  change (String "'" ?x +:+ ?y) with (String "'" (x +:+ y)).
  cbn [sql_read_literal]. rewrite Ascii.eqb_refl.
  rewrite <-(sql_literal_body_escaped s rest Hrest). f_equal.
  apply append_assoc.
Qed.

(** X2 for the value [O'Brien] followed by a comma and another value. *)
Lemma insert_value_str_reads_back_witness :
  sql_read_literal (@insert_value stub_libraries (PyStr "O'Brien") +:+ ", 5)")
  = Some ("O'Brien", ", 5)").
Proof.
  apply (@insert_value_str_reads_back stub_libraries "O'Brien" ", 5)"). reflexivity.
Defined.

Lemma pretty_Z_not_NULL (n : Z) : pretty n ≠ "NULL".
Proof.
  destruct n as [|p|p]; [done| |done].
  unfold pretty, pretty_Z, pretty, pretty_positive, pretty, pretty_N.
  case_decide; [done|].
  pose proof (pretty_N_go_digits (N.pos p) "" I) as Hdigits.
  intros Heq. rewrite Heq in Hdigits. by destruct Hdigits as [Hd _].
Qed.

(** X3. A missing value, [None] or NaN, is written as the bare word NULL;
    no boolean, integer or string is: the string [NULL] is written in
    quotes. *)
Theorem insert_value_null_only_missing `{Libraries} (b : bool) (n : Z) (s : string) :
  insert_value PyNone = "NULL"
  ∧ insert_value (PyFloat S754_nan) = "NULL"
  ∧ insert_value (PyBool b) ≠ "NULL"
  ∧ insert_value (PyInt n) ≠ "NULL"
  ∧ insert_value (PyStr s) ≠ "NULL"
  ∧ insert_value (PyStr "NULL") = "'NULL'".
Proof.
  split_and!; [done|done|by destruct b|apply pretty_Z_not_NULL|done|done].
Qed.

(** ** [get_file_info] and [preview_uploaded_file] *)

Section inspection_facts.
Context `{Libraries}.

Lemma json_records_info_Ok (json_data : json) (records : list json) :
  json_records_info json_data = Ok records → json_records json_data = Ok records.
Proof.
  by destruct json_data.
Qed.

Lemma json_records_Ok (json_data : json) (records : list json) :
  json_records json_data = Ok records → json_records_info json_data = Ok records.
Proof.
  by destruct json_data.
Qed.

(** What [get_file_info] and [preview_uploaded_file] do, by what the
    upload path reads. *)
Lemma get_file_info_cases (uploaded_file : UploadedFile) :
  match read_uploaded uploaded_file with
  | Ok df =>
      ∃ type, get_file_info uploaded_file
        = Ok (InfoDict type (df_len df) (length (df_columns df)) (df_columns df)
                (size_mb uploaded_file))
  | Raise e =>
      get_file_info uploaded_file = Ok ReturnsNone
      ∨ get_file_info uploaded_file = Ok (ErrorDict e (size_mb uploaded_file))
      ∨ (e = ValueError "Unsupported JSON structure"
         ∧ get_file_info uploaded_file
           = Ok (ErrorDict (UnboundLocalError "df") (size_mb uploaded_file)))
  | OutOfFuel => False
  end.
Proof.
  unfold read_uploaded, get_file_info, get_file_info_try.
  destruct (PyStr.endswith ".csv" _).
  { destruct (pd_read_csv _) as [msg|df]; simpl; eauto. }
  destruct (PyStr.endswith ".json" _); [|by left].
  destruct (json_loads _) as [msg|json_data]; simpl; [eauto|].
  destruct (json_records json_data) as [records|e|] eqn:Hrecords.
  - rewrite (json_records_Ok _ _ Hrecords). simpl.
    destruct (pd_DataFrame records) as [msg|df]; simpl; eauto.
  - apply json_records_Raise in Hrecords as (-> & Harray & Hobject).
    right. right. split; [done|]. by destruct json_data.
  - by destruct json_data as [| | | | |items|[|[key []] []]].
Qed.

Lemma preview_cases (uploaded_file : UploadedFile) (num_rows : Z) :
  match get_file_info uploaded_file with
  | Ok (InfoDict _ _ _ _ _) =>
      ∃ df, read_uploaded uploaded_file = Ok df
        ∧ preview_uploaded_file uploaded_file num_rows
          = Ok (PreviewFrame (df_head num_rows df))
  | Ok (ErrorDict e _) =>
      preview_uploaded_file uploaded_file num_rows = Ok (PreviewError e)
  | Ok ReturnsNone => preview_uploaded_file uploaded_file num_rows = Ok PreviewNone
  | _ => False
  end.
Proof.
  unfold read_uploaded, get_file_info, get_file_info_try,
    preview_uploaded_file, preview_uploaded_file_try.
  destruct (PyStr.endswith ".csv" _).
  { destruct (pd_read_csv _) as [msg|df]; simpl; eauto. }
  destruct (PyStr.endswith ".json" _); [|done].
  destruct (json_loads _) as [msg|json_data]; simpl; [done|].
  destruct (json_records_info json_data) as [records|e|] eqn:Hrecords; simpl.
  - rewrite (json_records_info_Ok _ _ Hrecords). simpl.
    destruct (pd_DataFrame records) as [msg|df]; simpl; eauto.
  - done.
  - by destruct json_data as [| | | | |items|[|[key []] []]].
Qed.

End inspection_facts.

(** X4. What [get_file_info] reports is what the upload path reads: when
    it returns the dict of a file, [create_sqlite_from_uploaded_file] reads
    a frame with that many rows and those columns, and a call without
    sample size that returns leaves a table with that many rows and
    columns. *)
Theorem file_info_matches_ingest `{Libraries} (uploaded_file : UploadedFile)
    (type : string) (n_rows n_columns : nat) (column_names : list label) (mb : Q)
    (table_name : string) (w : world) :
  get_file_info uploaded_file = Ok (InfoDict type n_rows n_columns column_names mb) →
  (∃ df, read_uploaded uploaded_file = Ok df
     ∧ df_len df = n_rows ∧ df_columns df = column_names
     ∧ length column_names = n_columns)
  ∧ ∀ path,
      (create_sqlite_from_uploaded_file uploaded_file table_name None w).1 = Ok path →
      ∃ table,
        files (create_sqlite_from_uploaded_file uploaded_file table_name None w).2
          !! path ≫= (λ db, db !! table_name) = Some table
        ∧ df_len table = n_rows ∧ length (df_columns table) = n_columns.
Proof.
  intros Hinfo. pose proof (get_file_info_cases uploaded_file) as Hcases.
  destruct (read_uploaded uploaded_file) as [df|e|] eqn:Hread; [| |done].
  - destruct Hcases as [type' Hinfo']. rewrite Hinfo in Hinfo'.
    injection Hinfo' as -> -> -> -> ->. split; [by exists df|].
    intros path Hpath.
    pose proof (create_table_written uploaded_file table_name None w) as Hwritten.
    unfold table_written in Hwritten. rewrite Hpath in Hwritten. simpl in Hwritten.
    rewrite create_fst in Hpath. unfold ingested_frame in *. rewrite Hread in *.
    simpl in *. unfold sampled_frame in *. destruct (df_empty df); [done|].
    simpl in *. unfold rename_columns in *.
    destruct (sanitize_columns_spec (label_str <$> df_columns df))
      as (out & Hout & Hlen & _).
    rewrite Hout in *. simpl in *.
    destruct (to_sql_raises _ _); [done|]. injection Hwritten as ->.
    eexists. split; [done|]. split; [done|]. simpl.
    by rewrite length_fmap, Hlen, length_fmap.
  - destruct Hcases as [Hnone|[Herr|[_ Herr]]]; congruence.
Qed.

(** X4 on the file of three rows. *)
Lemma file_info_matches_ingest_witness :
  (∃ df, @read_uploaded stub_libraries three_rows_csv = Ok df
     ∧ df_len df = 3
     ∧ df_columns df = [LStr "2023 Q1 (Revenue)"; LStr "a b"; LStr "a-b"]
     ∧ length [LStr "2023 Q1 (Revenue)"; LStr "a b"; LStr "a-b"] = 3)
  ∧ ∀ path,
      (@create_sqlite_from_uploaded_file stub_libraries three_rows_csv "staff" None
         stub_world).1 = Ok path →
      ∃ table,
        files (@create_sqlite_from_uploaded_file stub_libraries three_rows_csv "staff"
                 None stub_world).2
          !! path ≫= (λ db, db !! "staff") = Some table
        ∧ df_len table = 3 ∧ length (df_columns table) = 3.
Proof.
  apply (@file_info_matches_ingest stub_libraries three_rows_csv "CSV" 3 3
           [LStr "2023 Q1 (Revenue)"; LStr "a b"; LStr "a-b"] (Qmake 43 1048576)
           "staff" stub_world).
  vm_compute. reflexivity.
Defined.

(** X5. The preview of [n >= 0] rows is the first [n] rows (all of them
    when there are fewer) of the frame the upload path reads, under the
    same columns and dtypes. *)
Theorem preview_is_prefix `{Libraries} (uploaded_file : UploadedFile) (num_rows : Z)
    (shown : DataFrame) :
  (0 ≤ num_rows)%Z →
  preview_uploaded_file uploaded_file num_rows = Ok (PreviewFrame shown) →
  ∃ df, read_uploaded uploaded_file = Ok df
    ∧ df_columns shown = df_columns df
    ∧ df_dtypes shown = df_dtypes df
    ∧ df_rows shown = take (Z.to_nat num_rows) (df_rows df)
    ∧ df_len shown = Nat.min (Z.to_nat num_rows) (df_len df).
Proof.
  intros Hn Hshown. pose proof (preview_cases uploaded_file num_rows) as Hcases.
  destruct (get_file_info uploaded_file) as [[| |]| |]; try done; [|congruence..].
  destruct Hcases as (df & Hread & Hpreview). rewrite Hshown in Hpreview.
  injection Hpreview as ->. exists df. unfold df_len, df_head. simpl.
  rewrite (proj2 (Z.leb_le _ _) Hn). split_and!; [done..|]. apply length_take.
Qed.

(** X5 on the file of three rows, for a preview of five and of two rows. *)
Lemma preview_is_prefix_witness :
  (∃ df, @read_uploaded stub_libraries three_rows_csv = Ok df
     ∧ df_columns three_rows_frame = df_columns df
     ∧ df_dtypes three_rows_frame = df_dtypes df
     ∧ df_rows three_rows_frame = take (Z.to_nat 5) (df_rows df)
     ∧ df_len three_rows_frame = Nat.min (Z.to_nat 5) (df_len df))
  ∧ (∃ df, @read_uploaded stub_libraries three_rows_csv = Ok df
     ∧ df_columns (df_head 2 three_rows_frame) = df_columns df
     ∧ df_dtypes (df_head 2 three_rows_frame) = df_dtypes df
     ∧ df_rows (df_head 2 three_rows_frame) = take (Z.to_nat 2) (df_rows df)
     ∧ df_len (df_head 2 three_rows_frame) = Nat.min (Z.to_nat 2) (df_len df)).
Proof.
  split.
  - apply (@preview_is_prefix stub_libraries three_rows_csv 5 three_rows_frame);
      [lia|vm_compute; reflexivity].
  - apply (@preview_is_prefix stub_libraries three_rows_csv 2 (df_head 2 three_rows_frame));
      [lia|vm_compute; reflexivity].
Defined.

(** X6. [get_file_info] and [preview_uploaded_file] never raise, whatever
    the libraries raise, and they fail together: the preview is the text of
    an exception exactly when the info is the dict of that exception, and
    it is [None] exactly when the info is [None]. *)
Theorem preview_fails_with_file_info `{Libraries} (uploaded_file : UploadedFile)
    (num_rows : Z) (e : exn) :
  (∃ info, get_file_info uploaded_file = Ok info)
  ∧ (∃ shown, preview_uploaded_file uploaded_file num_rows = Ok shown)
  ∧ (preview_uploaded_file uploaded_file num_rows = Ok (PreviewError e)
     ↔ get_file_info uploaded_file = Ok (ErrorDict e (size_mb uploaded_file)))
  ∧ (preview_uploaded_file uploaded_file num_rows = Ok PreviewNone
     ↔ get_file_info uploaded_file = Ok ReturnsNone).
Proof.
  pose proof (preview_cases uploaded_file num_rows) as Hcases.
  pose proof (get_file_info_cases uploaded_file) as Hinfo.
  destruct (get_file_info uploaded_file) as [[type n m cols mb|e' mb|]| |] eqn:Hget;
    try done.
  - destruct Hcases as (df & Hread & ->). split_and!; [by eexists..| |]; by split.
  - rewrite Hcases.
    assert (mb = size_mb uploaded_file) as ->.
    { destruct (read_uploaded uploaded_file); [by destruct Hinfo| |done].
      destruct Hinfo as [?|[?|[_ ?]]]; congruence. }
    split_and!; [by eexists..| |]; split; congruence.
  - rewrite Hcases. split_and!; [by eexists..| |]; by split.
Qed.

(** ** [create_sqlite_file_directly] *)

Section direct_facts.
Context `{Libraries} `{Disk}.

Lemma pystr_map_map (f g : ascii → ascii) (s : string) :
  PyStr.map f (PyStr.map g s) = PyStr.map (λ c, f (g c)) s.
Proof. induction s as [|c s IH]; simpl; [done|]. by rewrite IH. Qed.

Lemma simple_clean_map (s : string) :
  simple_clean s = PyStr.map (λ c, sub "." (sub "-" (sub " " c))) s.
Proof.
  cbv beta zeta delta [simple_clean]. by rewrite !replace_sub, !pystr_map_map.
Qed.

Lemma df_sample_seeded (n : Z) (seed : Z) (df : DataFrame) (w : world) :
  (0 ≤ n ≤ Z.of_nat (df_len df))%Z →
  df_sample n (Some seed) df w
  = (Ok (df_take (rs_choice (np_RandomState seed) (df_len df) (Z.to_nat n)).1 df),
     record_call (CallSample n (Some seed)) w).
Proof.
  intros Hn. unfold df_sample. unfold_py.
  rewrite (proj2 (Z.ltb_ge _ _)) by lia. by rewrite (proj2 (Z.ltb_ge _ _)) by lia.
Qed.

Lemma df_sample_negative (n : Z) (seed : Z) (df : DataFrame) (w : world) :
  (n < 0)%Z → ∃ e, (df_sample n (Some seed) df w).1 = Raise e.
Proof.
  intros Hn. unfold df_sample. unfold_py.
  rewrite (proj2 (Z.ltb_lt _ _)) by lia. by eexists.
Qed.

End direct_facts.

(** X7. When [create_sqlite_file_directly] returns, it returns the output
    path, and the table it leaves there has min(row count, sample_size)
    rows (none for a sample size of 0); the other tables of that database
    and the other files are as they were. *)
Theorem direct_row_count `{Libraries} `{!ChoiceLaws} `{Disk}
    (file_path output_db_path table_name : string) (sample_size : Z) (w : world)
    (path : string) :
  (create_sqlite_file_directly file_path output_db_path table_name sample_size w).1
    = Ok path →
  path = output_db_path
  ∧ ∃ df table db,
      read_path file_path = Ok df
      ∧ files (create_sqlite_file_directly file_path output_db_path table_name
                 sample_size w).2 !! output_db_path = Some db
      ∧ db !! table_name = Some table
      ∧ Z.of_nat (df_len table) = Z.min (Z.of_nat (df_len df)) sample_size
      ∧ (∀ other, other ≠ table_name →
           db !! other = files w !! output_db_path ≫= (λ old, old !! other))
      ∧ (∀ other, other ≠ output_db_path →
           files (create_sqlite_file_directly file_path output_db_path table_name
                    sample_size w).2 !! other = files w !! other).
Proof.
  unfold create_sqlite_file_directly, to_sql. unfold_py.
  destruct (read_path file_path) as [df| |] eqn:Hread; [|done..].
  destruct (sample_size <? Z.of_nat (df_len df))%Z eqn:Hlt.
  - apply Z.ltb_lt in Hlt. destruct (decide (sample_size < 0)%Z) as [Hneg|Hpos].
    { destruct (df_sample_negative sample_size 42 df w Hneg) as [e He].
      destruct (df_sample _ _ _ _) as [[]]; simpl in *; by simplify_eq. }
    rewrite df_sample_seeded by lia. simpl.
    destruct (simple_clean_columns _) as [columns| |]; [|done..].
    destruct (to_sql_raises _ _); [done|]. simpl. intros [= <-].
    split; [done|]. eexists df, _, _. split_and!; [done|apply lookup_insert_eq| | | |].
    + apply lookup_insert_eq.
    + unfold df_len at 1. simpl. rewrite omap_lookup_length.
      * rewrite choice_length by (unfold df_len in *; lia). lia.
      * apply choice_range. unfold df_len in *. lia.
    + intros other Hother. rewrite lookup_insert_ne by done.
      by destruct (files w !! output_db_path).
    + intros other Hother. by rewrite lookup_insert_ne.
  - apply Z.ltb_ge in Hlt.
    destruct (simple_clean_columns _) as [columns| |]; [|done..].
    destruct (to_sql_raises _ _); [done|]. simpl. intros [= <-].
    split; [done|]. eexists df, _, _. split_and!; [done|apply lookup_insert_eq| | | |].
    + apply lookup_insert_eq.
    + unfold df_len in *. simpl. lia.
    + intros other Hother. rewrite lookup_insert_ne by done.
      by destruct (files w !! output_db_path).
    + intros other Hother. by rewrite lookup_insert_ne.
Qed.

(** X7 on the file of three rows at [/data/three.csv], with a sample of
    two. *)
Lemma direct_row_count_witness :
  "/out/three.db" = "/out/three.db"
  ∧ ∃ df table db,
      @read_path stub_libraries stub_disk "/data/three.csv" = Ok df
      ∧ files (@create_sqlite_file_directly stub_libraries stub_disk "/data/three.csv"
                 "/out/three.db" "data" 2 stub_world).2 !! "/out/three.db" = Some db
      ∧ db !! "data" = Some table
      ∧ Z.of_nat (df_len table) = Z.min (Z.of_nat (df_len df)) 2
      ∧ (∀ other, other ≠ "data" →
           db !! other = files stub_world !! "/out/three.db" ≫= (λ old, old !! other))
      ∧ (∀ other, other ≠ "/out/three.db" →
           files (@create_sqlite_file_directly stub_libraries stub_disk "/data/three.csv"
                    "/out/three.db" "data" 2 stub_world).2 !! other
           = files stub_world !! other).
Proof.
  apply (@direct_row_count stub_libraries stub_choice_laws stub_disk "/data/three.csv"
           "/out/three.db" "data" 2%Z stub_world "/out/three.db").
  vm_compute. reflexivity.
Defined.




(** ** The short column cleaning of lines 37, 99 and 224 *)

Lemma mem_map_false (c : ascii) (f : ascii → ascii) (s : string) :
  (∀ d, Ascii.eqb c (f d) = false) → PyStr.mem c (PyStr.map f s) = false.
Proof.
  intros Hf. induction s as [|d s IH]; [done|].
  cbn [PyStr.map PyStr.mem]. by rewrite Hf, IH.
Qed.

Lemma map_length (f : ascii → ascii) (s : string) :
  String.length (PyStr.map f s) = String.length s.
Proof. induction s as [|c s IH]; simpl; [done|]. by rewrite IH. Qed.

Lemma pystr_map_ext (f g : ascii → ascii) (s : string) :
  (∀ c, f c = g c) → PyStr.map f s = PyStr.map g s.
Proof. intros Hfg. induction s as [|c s IH]; simpl; [done|]. by rewrite Hfg, IH. Qed.

(** X9. The short cleaning keeps the length of a name and leaves no space,
    hyphen or period in it; it changes nothing when applied again, and the
    sanitization of the upload path gives the same name with or without
    it. *)
Theorem simple_clean_absorbed (col : string) :
  String.length (simple_clean col) = String.length col
  ∧ PyStr.mem " " (simple_clean col) = false
  ∧ PyStr.mem "-" (simple_clean col) = false
  ∧ PyStr.mem "." (simple_clean col) = false
  ∧ simple_clean (simple_clean col) = simple_clean col
  ∧ replace_special (simple_clean col) = replace_special col.
Proof.
  rewrite replace_special_map, !simple_clean_map, replace_special_map.
  split_and!.
  - apply map_length.
  - apply mem_map_false. intros d. each_ascii d; vm_compute; reflexivity.
  - apply mem_map_false. intros d. each_ascii d; vm_compute; reflexivity.
  - apply mem_map_false. intros d. each_ascii d; vm_compute; reflexivity.
  - rewrite pystr_map_map. apply pystr_map_ext.
    intros c. each_ascii c; vm_compute; reflexivity.
  - rewrite pystr_map_map. apply pystr_map_ext.
    intros c. each_ascii c; vm_compute; reflexivity.
Qed.

(** ** The files a call of [create_sqlite_from_uploaded_file] touches *)

(** X10. When the temporary name is a new one, a call of
    [create_sqlite_from_uploaded_file] that returns has added one file, the
    one it returns, which holds the one table [table_name]; a call that
    raises has removed its temporary file again. Every other file is as it
    was. *)
Theorem upload_leaves_one_file `{Libraries} (uploaded_file : UploadedFile)
    (table_name : string) (sample_size : option Z) (w : world) :
  files w !! temp_name (dom (files w)) = None →
  match (create_sqlite_from_uploaded_file uploaded_file table_name sample_size w).1 with
  | Ok path =>
      files w !! path = None
      ∧ ∃ df, ingested_frame uploaded_file sample_size = Ok df
              ∧ files (create_sqlite_from_uploaded_file uploaded_file table_name
                         sample_size w).2
                = <[path := {[table_name := df]}]> (files w)
  | _ =>
      files (create_sqlite_from_uploaded_file uploaded_file table_name sample_size w).2
      = files w
  end.
Proof.
  intros Hfresh.
  unfold create_sqlite_from_uploaded_file, to_sql. unfold_py.
  set (tmp := temp_name (dom (files w))) in *. set (w0 := set_files _ w).
  pose proof (ingest_frame_fst uploaded_file sample_size w0) as Hfst.
  pose proof (ingest_frame_snd uploaded_file sample_size w0) as [Hfiles _].
  destruct (ingest_frame uploaded_file sample_size w0) as [[df| |] w1]; simpl in *.
  - destruct (to_sql_raises table_name df); simpl.
    + rewrite !delete_insert_eq. rewrite Hfiles. rewrite delete_insert_eq.
      by apply delete_id.
    + split; [done|]. exists df. split; [done|].
      rewrite Hfiles. rewrite lookup_insert_eq. simpl.
      rewrite insert_insert_eq. by rewrite insert_empty.
  - rewrite Hfiles. rewrite delete_insert_eq. by apply delete_id.
  - pose proof (create_returns uploaded_file table_name sample_size w) as Hreturns.
    rewrite create_fst, <-Hfst in Hreturns. by destruct Hreturns.
Qed.

(** X10 on the file of three rows, with a sample of two. *)
Lemma upload_leaves_one_file_witness :
  match (@create_sqlite_from_uploaded_file stub_libraries three_rows_csv "staff"
           (Some 2%Z) stub_world).1 with
  | Ok path =>
      files stub_world !! path = None
      ∧ ∃ df, @ingested_frame stub_libraries three_rows_csv (Some 2%Z) = Ok df
              ∧ files (@create_sqlite_from_uploaded_file stub_libraries three_rows_csv
                         "staff" (Some 2%Z) stub_world).2
                = <[path := {[ "staff" := df ]}]> (files stub_world)
  | _ =>
      files (@create_sqlite_from_uploaded_file stub_libraries three_rows_csv "staff"
               (Some 2%Z) stub_world).2
      = files stub_world
  end.
Proof.
  apply (@upload_leaves_one_file stub_libraries three_rows_csv "staff" (Some 2%Z)
           stub_world).
  vm_compute. reflexivity.
Defined.

(** ** The conversion of an upload in app.py *)

(** X11. The sidebar keeps its word: for a file whose [get_file_info]
    reports [n_rows] rows and a sample size within the input's range
    (0 to [n_rows]), a conversion that returns leaves a table with as many
    records as were announced: the sample size when it is positive, all
    [n_rows] otherwise. The value the input starts with is in that range
    and announces min(n_rows, 10000) records. *)
Theorem convert_writes_announced_records `{Libraries} `{!ChoiceLaws}
    (uploaded_file : UploadedFile) (type : string) (n_rows n_columns : nat)
    (column_names : list label) (mb : Q) (table_name : string) (w : world) :
  get_file_info uploaded_file = Ok (InfoDict type n_rows n_columns column_names mb) →
  (0 ≤ default_sample_value (Z.of_nat n_rows) ≤ Z.of_nat n_rows)%Z
  ∧ announced_records (Z.of_nat n_rows) (default_sample_value (Z.of_nat n_rows))
    = Z.min (Z.of_nat n_rows) 10000
  ∧ ∀ sample_size path,
      (0 ≤ sample_size ≤ Z.of_nat n_rows)%Z →
      (convert_to_sqlite uploaded_file table_name sample_size w).1 = Ok path →
      ∃ table,
        files (convert_to_sqlite uploaded_file table_name sample_size w).2
          !! path ≫= (λ db, db !! table_name) = Some table
        ∧ Z.of_nat (df_len table) = announced_records (Z.of_nat n_rows) sample_size.
Proof.
  intros Hinfo. split; [|split].
  - unfold default_sample_value. destruct (10000 <? _)%Z eqn:Hlarge; lia.
  - unfold default_sample_value, announced_records.
    destruct (10000 <? _)%Z eqn:Hlarge.
    + apply Z.ltb_lt in Hlarge. rewrite (proj2 (Z.ltb_lt _ _)) by lia. done.
    + apply Z.ltb_ge in Hlarge. simpl. lia.
  - intros sample_size path Hrange Hpath. unfold convert_to_sqlite in *.
    set (size := if (0 <? sample_size)%Z then Some sample_size else None) in *.
    pose proof (get_file_info_cases uploaded_file) as Hcases.
    destruct (read_uploaded uploaded_file) as [df|e|] eqn:Hread; [| |done].
    2: { destruct Hcases as [Hnone|[Herr|[_ Herr]]]; congruence. }
    destruct Hcases as [type' Hinfo']. rewrite Hinfo in Hinfo'.
    injection Hinfo' as -> -> -> -> ->.
    pose proof (create_table_written uploaded_file table_name size w) as Hwritten.
    unfold table_written in Hwritten. rewrite Hpath in Hwritten. simpl in Hwritten.
    rewrite create_fst in Hpath. unfold ingested_frame in *. rewrite Hread in *.
    simpl in *.
    destruct (sampled_frame size df) as [df'| |] eqn:Hsampled; [|done..].
    simpl in *.
    destruct (rename_columns df') as [table| |] eqn:Hrename; [|done..]. simpl in *.
    destruct (to_sql_raises table_name table); [done|].
    exists table. injection Hwritten as ->. split; [done|].
    apply sampled_frame_rows in Hsampled as [Hlen _].
    apply rename_columns_rows in Hrename.
    unfold df_len in *. rewrite Hrename, Hlen.
    unfold announced_records, size. destruct (0 <? sample_size)%Z eqn:Hpos; simpl.
    + apply Z.ltb_lt in Hpos. rewrite (proj2 (Z.eqb_neq _ _)) by lia. lia.
    + lia.
Qed.

(** X11 on the file of three rows. *)
Lemma convert_writes_announced_records_witness :
  (0 ≤ default_sample_value (Z.of_nat 3) ≤ Z.of_nat 3)%Z
  ∧ announced_records (Z.of_nat 3) (default_sample_value (Z.of_nat 3))
    = Z.min (Z.of_nat 3) 10000
  ∧ ∀ sample_size path,
      (0 ≤ sample_size ≤ Z.of_nat 3)%Z →
      (@convert_to_sqlite stub_libraries three_rows_csv "staff" sample_size
         stub_world).1 = Ok path →
      ∃ table,
        files (@convert_to_sqlite stub_libraries three_rows_csv "staff" sample_size
                 stub_world).2
          !! path ≫= (λ db, db !! "staff") = Some table
        ∧ Z.of_nat (df_len table) = announced_records (Z.of_nat 3) sample_size.
Proof.
  apply (@convert_writes_announced_records stub_libraries stub_choice_laws
           three_rows_csv "CSV" 3 3
           [LStr "2023 Q1 (Revenue)"; LStr "a b"; LStr "a-b"] (Qmake 43 1048576)
           "staff" stub_world).
  vm_compute. reflexivity.
Defined.

(** ** The query history of app.py *)

Section history_facts.

Lemma add_to_history_elem_of (query q : string) (query_history : list string) :
  q ∈ add_to_history query query_history ↔ q ∈ query_history ∨ q = query.
Proof.
  unfold add_to_history. destruct (decide (query ∈ query_history)) as [Hin|Hin].
  - split; [by left|]. by intros [?| ->].
  - rewrite elem_of_app, list_elem_of_singleton. done.
Qed.

Lemma add_to_history_NoDup (query : string) (query_history : list string) :
  NoDup query_history → NoDup (add_to_history query query_history).
Proof.
  intros Hnodup. unfold add_to_history.
  destruct (decide (query ∈ query_history)) as [Hin|Hin]; [done|].
  apply NoDup_app. split_and!; [done| |apply NoDup_singleton].
  intros q Hq ->%list_elem_of_singleton. done.
Qed.

Lemma foldl_add_to_history (ran query_history : list string) :
  NoDup query_history →
  NoDup (foldl (λ h query, add_to_history query h) query_history ran)
  ∧ (∀ q, q ∈ foldl (λ h query, add_to_history query h) query_history ran
          ↔ q ∈ query_history ∨ q ∈ ran)
  ∧ query_history `prefix_of` foldl (λ h query, add_to_history query h) query_history ran.
Proof.
  revert query_history. induction ran as [|query ran IH]; intros query_history Hnodup; simpl.
  - split_and!; [done| |done]. intros q. rewrite elem_of_nil. tauto.
  - destruct (IH _ (add_to_history_NoDup query _ Hnodup)) as (IH1 & IH2 & IH3).
    split_and!; [done| |].
    + intros q. rewrite IH2, add_to_history_elem_of, elem_of_cons. tauto.
    + etrans; [|exact IH3]. unfold add_to_history.
      destruct (decide _); [done|]. by apply prefix_app_r.
Qed.

Lemma py_last_length {A} (n : nat) (l : list A) :
  length (py_last n l) = n `min` length l.
Proof. unfold py_last. rewrite length_drop. lia. Qed.

Lemma py_last_lookup {A} (n i : nat) (l : list A) :
  py_last n l !! i = l !! (length l - n + i).
Proof. unfold py_last. apply lookup_drop. Qed.

End history_facts.

(** X12. The query history holds each query that ran once, at the place of
    its first run: it has no duplicates, its members are the queries that
    ran, and a query that runs again neither moves nor changes it. *)
Theorem history_keeps_first_runs (ran : list string) (query : string) :
  NoDup (history_after ran)
  ∧ (∀ q, q ∈ history_after ran ↔ q ∈ ran)
  ∧ history_after ran `prefix_of` history_after (ran ++ [query])
  ∧ (query ∈ ran → history_after (ran ++ [query]) = history_after ran)
  ∧ ((query ∉ ran) → history_after (ran ++ [query]) = history_after ran ++ [query]).
Proof.
  unfold history_after.
  destruct (foldl_add_to_history ran [] (NoDup_nil_2)) as (Hnodup & Helem & _).
  assert (∀ q, q ∈ foldl (λ h query, add_to_history query h) [] ran ↔ q ∈ ran) as Hmem.
  { intros q. rewrite Helem, elem_of_nil. tauto. }
  rewrite foldl_app. simpl.
  set (query_history := foldl _ [] ran) in *. unfold add_to_history.
  destruct (decide (query ∈ query_history)) as [Hin|Hin].
  - split_and!; [done..|]. intros Hout. by apply Hmem in Hin.
  - split_and!; [done|done|by apply prefix_app_r| |done].
    intros Hran. by apply Hmem in Hran.
Qed.

(** X13. The buttons of the history are at most five, one for each of the
    last five queries, the most recent first; the button at index [i] is
    labelled with the position, counted from 1, of its query in the
    history. *)
Theorem history_button_numbering (query_history : list string) (i n key : nat)
    (hist_query : string) :
  history_buttons query_history !! i = Some (n, key, hist_query) →
  length (history_buttons query_history) = 5 `min` length query_history
  ∧ key = i
  ∧ 1 ≤ n ≤ length query_history
  ∧ n = length query_history - i
  ∧ query_history !! (n - 1) = Some hist_query.
Proof.
  unfold history_buttons. intros Hbutton.
  split. { by rewrite length_imap, length_reverse, py_last_length. }
  apply list_lookup_imap_Some in Hbutton as (q & Hq & [= Hn Hkey Hquery]).
  subst n key q.
  pose proof (lookup_lt_Some _ _ _ Hq) as Hi.
  rewrite length_reverse, py_last_length in Hi.
  rewrite reverse_lookup in Hq by (rewrite py_last_length; lia).
  rewrite py_last_length, py_last_lookup in Hq.
  split_and!; [done|lia|lia|done|].
  rewrite <-Hq. f_equal. lia.
Qed.

(** X13 on a history of two queries. *)
Lemma history_button_numbering_witness :
  length (history_buttons ["SELECT 1"; "SELECT 2"]) = 5 `min` length ["SELECT 1"; "SELECT 2"]
  ∧ 0 = 0
  ∧ 1 ≤ 2 ≤ length ["SELECT 1"; "SELECT 2"]
  ∧ 2 = length ["SELECT 1"; "SELECT 2"] - 0
  ∧ ["SELECT 1"; "SELECT 2"] !! (2 - 1) = Some "SELECT 2".
Proof.
  apply (history_button_numbering ["SELECT 1"; "SELECT 2"] 0 2 0 "SELECT 2").
  reflexivity.
Defined.

(** ** sql_gen.py *)

Lemma succ_mod_5 (n : nat) :
  S n mod 5 = if decide (n mod 5 = 4) then 0 else S (n mod 5).
Proof.
  pose proof (Nat.div_mod_eq n 5) as Hn. pose proof (Nat.div_mod_eq (S n) 5) as HSn.
  pose proof (Nat.mod_upper_bound n 5 ltac:(lia)).
  pose proof (Nat.mod_upper_bound (S n) 5 ltac:(lia)).
  destruct (decide _); lia.
Qed.

Lemma sql_gen_session_after_snoc (runs : list (bool * string * SqlGen.stream))
    (submitted : bool) (query : string) (reply : SqlGen.stream) :
  SqlGen.session_after (runs ++ [(submitted, query, reply)])
  = (SqlGen.rerun submitted query reply (SqlGen.session_after runs)).2.
Proof. unfold SqlGen.session_after. by rewrite foldl_app. Qed.

Lemma sql_gen_submits_snoc (runs : list (bool * string * SqlGen.stream))
    (submitted : bool) (query : string) (reply : SqlGen.stream) :
  SqlGen.submits (runs ++ [(submitted, query, reply)])
  = if submitted && PyStr.truthy query then S (SqlGen.submits runs)
    else SqlGen.submits runs.
Proof.
  unfold SqlGen.submits. rewrite List.filter_app, length_app.
  cbn [List.filter]. destruct (submitted && PyStr.truthy query); cbn [length]; lia.
Qed.

Lemma sql_gen_invariant (runs : list (bool * string * SqlGen.stream)) :
  SqlGen.contextual_counter (SqlGen.session_after runs) = SqlGen.submits runs mod 5
  ∧ length (SqlGen.messages (SqlGen.session_after runs))
    ≤ 2 * SqlGen.contextual_counter (SqlGen.session_after runs) + 1.
Proof.
  induction runs as [|[[submitted query] reply] runs IH] using rev_ind.
  { split; [done|]. cbn. lia. }
  rewrite sql_gen_session_after_snoc, sql_gen_submits_snoc.
  set (s := SqlGen.session_after runs) in *.
  unfold SqlGen.rerun. destruct (submitted && PyStr.truthy query); [|done].
  destruct IH as [Hcounter Hlength]. cbn [snd].
  rewrite succ_mod_5, <-Hcounter.
  pose proof (Nat.mod_upper_bound (SqlGen.submits runs) 5 ltac:(lia)).
  unfold SqlGen.submit.
  destruct (decide (SqlGen.contextual_counter s = 4)) as [Hfour|Hfour].
  - rewrite Hfour. cbn. destruct (SqlGen.raised reply); cbn; lia.
  - rewrite (proj2 (Nat.leb_gt 5 _)) by lia.
    destruct (SqlGen.raised reply); cbn; rewrite ?length_app; cbn; lia.
Qed.

(** X14. In sql_gen.py, after any runs of the script, the counter is the
    number of submitted queries modulo 5 and the history holds at most
    2 * counter + 1 messages; and every fifth submitted query is not sent:
    the messages of that call are the system message alone, where every
    other call sends the system message, the history and the query. *)
Theorem sql_gen_fifth_query_not_sent (runs : list (bool * string * SqlGen.stream))
    (query : string) (reply : SqlGen.stream) :
  SqlGen.contextual_counter (SqlGen.session_after runs) = SqlGen.submits runs mod 5
  ∧ length (SqlGen.messages (SqlGen.session_after runs)) ≤ 9
  ∧ (SqlGen.submit query reply (SqlGen.session_after runs)).1
    = if decide (SqlGen.submits runs mod 5 = 4)
      then [user SqlGen.system_message]
      else user SqlGen.system_message
           :: SqlGen.messages (SqlGen.session_after runs) ++ [user query].
Proof.
  destruct (sql_gen_invariant runs) as [Hcounter Hlength].
  pose proof (Nat.mod_upper_bound (SqlGen.submits runs) 5 ltac:(lia)).
  split_and!; [done|lia|].
  rewrite <-Hcounter. unfold SqlGen.submit.
  destruct (decide (SqlGen.contextual_counter _ = 4)) as [Hfour|Hfour].
  - rewrite Hfour. simpl. by destruct (SqlGen.raised reply).
  - rewrite (proj2 (Nat.leb_gt 5 _)) by lia. by destruct (SqlGen.raised reply).
Qed.

(** ** helper/insight_gen.py *)

Lemma insight_invariant (actions : list InsightGen.action) :
  InsightGen.contextual_counter (InsightGen.session_after actions) ≤ 9
  ∧ length (InsightGen.ai_messages (InsightGen.session_after actions))
    ≤ 2 * InsightGen.contextual_counter (InsightGen.session_after actions) + 4.
Proof.
  induction actions as [|a actions IH] using rev_ind; [simpl; lia|].
  unfold InsightGen.session_after in *. rewrite foldl_app. simpl.
  set (s := foldl _ InsightGen.initial actions) in *.
  destruct a as [client full_prompt prompt chat|]; [|simpl; lia].
  unfold InsightGen.act, InsightGen.generate_response.
  destruct client; [|done]. destruct full_prompt as [error|full_prompt]; [done|].
  unfold InsightGen.api_messages, InsightGen._manage_conversation_history.
  destruct (10 <=? InsightGen.contextual_counter s + 1) eqn:Hten.
  - pose proof (py_last_length 2 (InsightGen.ai_messages s)).
    cbn. destruct (chat _); cbn; rewrite ?length_app; cbn; lia.
  - apply Nat.leb_gt in Hten.
    cbn. destruct (chat _); cbn; rewrite ?length_app; cbn; lia.
Qed.

(** X15. In insight_gen.py, after any calls of [generate_response] and
    clearings of the history, the counter is at most 9 and the history
    holds at most 22 messages; a call then sends between 2 and 5 messages,
    the first of which is the full prompt and the last the bare prompt. *)
Theorem insight_history_bounded (actions : list InsightGen.action)
    (full_prompt prompt : string) :
  InsightGen.contextual_counter (InsightGen.session_after actions) ≤ 9
  ∧ length (InsightGen.ai_messages (InsightGen.session_after actions)) ≤ 22
  ∧ length (InsightGen.recent_messages (InsightGen.session_after actions)) ≤ 6
  ∧ 2 ≤ length (InsightGen.api_messages full_prompt prompt
                  (InsightGen.session_after actions)).1 ≤ 5
  ∧ head (InsightGen.api_messages full_prompt prompt
            (InsightGen.session_after actions)).1 = Some (user full_prompt)
  ∧ last (InsightGen.api_messages full_prompt prompt
            (InsightGen.session_after actions)).1 = Some (user prompt).
Proof.
  destruct (insight_invariant actions) as [Hcounter Hlength].
  set (s := InsightGen.session_after actions) in *.
  unfold InsightGen.recent_messages, InsightGen.api_messages. simpl.
  set (history := InsightGen.ai_messages (InsightGen._manage_conversation_history s)).
  pose proof (py_last_length 4 (history ++ [user prompt])) as Hlast.
  rewrite length_app in Hlast. cbn [length] in Hlast.
  split; [done|]. split; [lia|]. split; [rewrite py_last_length; lia|].
  split; [lia|]. split; [done|].
  unfold py_last. rewrite length_app. cbn [length].
  rewrite drop_app_le by lia. by rewrite last_cons, last_snoc.
Qed.

(** ** helper/visualization_helper.py *)

Section suggestion_facts.
Context `{SeriesStats}.







(** What it returns when it returns. *)
Lemma suggest_visualizations_inv (df : DataFrame) (suggestions : list suggestion) :
  suggest_visualizations df = Ok suggestions →
  suggestions = []
  ∨ ∃ low, suggestions = suggestions_of (select_dtypes is_number df) low.
Proof.
  unfold suggest_visualizations, analyze_dataframe_for_viz.
  destruct (df_empty df); simpl; [intros [= <-]; by left|].
  destruct (cardinality_split _ _) as [split| |]; simpl; [|done..].
  intros [= <-]. right. by eexists.
Qed.

End suggestion_facts.

Ltac split_columns numeric low :=
  destruct numeric as [|?n0 [|?n1 [|?n2 [|?n3 [|?n4 ?numeric]]]]];
  destruct low as [|?l0 [|?l1 [|?l2 ?low]]].




Lemma scatter_shown (numeric low : list label) (x_column y_column : label) :
  Scatter x_column y_column ∈ take 6 (suggestions_of numeric low) →
  length numeric ≤ 3 ∧ length low ≤ 1
  ∧ numeric !! 0 = Some x_column ∧ numeric !! 1 = Some y_column.
Proof.
  intros Hin. split_columns numeric low; simpl in Hin;
    repeat match goal with
    | H : _ ∈ _ :: _ |- _ => apply elem_of_cons in H as [H|H]; [try discriminate H|]
    | H : _ ∈ [] |- _ => by apply elem_of_nil in H
    end;
    simplify_eq; cbn; split_and!; try done; lia.
Qed.

Lemma suggestions_of_length (numeric low : list label) :
  length (suggestions_of numeric low) ≤ 14.
Proof.
  unfold suggestions_of, scatter_suggestions. rewrite !length_app, !length_fmap, !length_take.
  assert (length (if bool_decide (numeric = []) then [] else [SummaryStats]) ≤ 1)
    by (case_bool_decide; simpl; lia).
  assert (length (if 1 <? length numeric then [Correlation] else []) ≤ 1)
    by (destruct (1 <? _); simpl; lia).
  assert (length (if 2 <=? length numeric
                  then mjoin (imap (λ i x_col, (λ y_col, Scatter x_col y_col)
                                      <$> py_slice numeric (i + 1) (i + 3))
                                (take 2 numeric))
                  else []) ≤ 4).
  { destruct (2 <=? _); [|simpl; lia].
    destruct numeric as [|n0 [|n1 numeric]]; cbn; [lia| |].
    - lia.
    - unfold py_slice. rewrite !length_app, !length_fmap, !length_take. simpl.
      rewrite drop_0. destruct numeric as [|n2 [|n3 numeric]]; simpl; lia. }
  lia.
Qed.


(** X17. [suggest_visualizations] gives at most 14 suggestions, and none
    for an empty frame. A scatter plot is among the six shown only for a
    frame with at most three numeric columns, and it is then the plot of
    the second numeric column against the first. *)
Theorem scatter_shown_for_few_numeric `{SeriesStats} (df : DataFrame)
    (suggestions : list suggestion) :
  suggest_visualizations df = Ok suggestions →
  length suggestions ≤ 14
  ∧ (df_empty df = true → suggestions = [])
  ∧ ∀ x_column y_column,
      Scatter x_column y_column ∈ take 6 suggestions →
      length (select_dtypes is_number df) ≤ 3
      ∧ select_dtypes is_number df !! 0 = Some x_column
      ∧ select_dtypes is_number df !! 1 = Some y_column.
Proof.
  intros Hsuggest. split_and!.
  - apply suggest_visualizations_inv in Hsuggest as [->|[low ->]]; [simpl; lia|].
    apply suggestions_of_length.
  - intros Hempty. unfold suggest_visualizations, analyze_dataframe_for_viz in Hsuggest.
    rewrite Hempty in Hsuggest. simpl in Hsuggest. by injection Hsuggest as <-.
  - intros x_column y_column Hin.
    apply suggest_visualizations_inv in Hsuggest as [->|[low ->]].
    { by apply elem_of_nil in Hin. }
    apply scatter_shown in Hin as (? & _ & ? & ?). done.
Qed.


(** X17 on the frame of sales. *)
Lemma scatter_shown_for_few_numeric_witness :
  length [SummaryStats; Distribution (LStr "qty"); Distribution (LStr "price");
          Correlation; BarChart (LStr "region"); Scatter (LStr "qty") (LStr "price")] ≤ 14
  ∧ (df_empty sales_frame = true →
     [SummaryStats; Distribution (LStr "qty"); Distribution (LStr "price");
      Correlation; BarChart (LStr "region"); Scatter (LStr "qty") (LStr "price")] = [])
  ∧ ∀ x_column y_column,
      Scatter x_column y_column
        ∈ take 6 [SummaryStats; Distribution (LStr "qty"); Distribution (LStr "price");
                  Correlation; BarChart (LStr "region");
                  Scatter (LStr "qty") (LStr "price")] →
      length (select_dtypes is_number sales_frame) ≤ 3
      ∧ select_dtypes is_number sales_frame !! 0 = Some x_column
      ∧ select_dtypes is_number sales_frame !! 1 = Some y_column.
Proof.
  apply (@scatter_shown_for_few_numeric stub_series_stats sales_frame).
  vm_compute. reflexivity.
Defined.

(** ** [csv_to_sqlite_sample_data] and [json_to_sqlite_sample_data] *)

Section sample_code_facts.
Context `{Libraries} `{Iterrows} `{Disk}.

(** The code built from a frame and the table the direct path writes from
    the same frame: the INSERT text is made of the rows [df.iterrows()]
    yields for the frame that is stored. *)
Lemma sample_code_core (file_path table_name : string) (sample_size : Z)
    (df : DataFrame) (w : world) (python_code : string) :
  read_path file_path = Ok df →
  (sqlite_sample_data df table_name sample_size w).1 = Ok python_code →
  ∃ table insert_sql columns,
    python_code = sample_data_code (generate_create_table_sql table table_name) insert_sql
    ∧ join_columns (df_columns table) = Ok columns
    ∧ insert_sql
      = PyStr.join (newline +:+ newline)
          (insert_statement table_name columns
             <$> record_chunks (insert_record <$> df_iterrows table))
    ∧ NoDup (df_columns table)
    ∧ ∀ output_db_path w',
        to_sql_raises table_name table = None →
        (create_sqlite_file_directly file_path output_db_path table_name sample_size w').1
          = Ok output_db_path
        ∧ files (create_sqlite_file_directly file_path output_db_path table_name
                   sample_size w').2
            !! output_db_path ≫= (λ db, db !! table_name) = Some table.
Proof.
  intros Hread.
  unfold sqlite_sample_data, generate_insert_sql, create_sqlite_file_directly, to_sql.
  rewrite Hread. unfold create_table_sql_of. unfold_py.
  destruct (sample_size <? Z.of_nat (df_len df))%Z eqn:Hlt.
  - unfold df_sample. unfold_py.
    destruct (sample_size <? 0)%Z; unfold_py; [done|].
    destruct (Z.of_nat (df_len df) <? sample_size)%Z; unfold_py; [done|].
    set (sampled := df_take _ df).
    destruct (simple_clean_columns (df_columns df)) as [cleaned| |]; simpl; [|done..].
    destruct (decide (NoDup cleaned)) as [Hnodup|]; simpl; [|done].
    destruct (join_columns cleaned) as [columns| |] eqn:Hcolumns; simpl; [|done..].
    intros [= <-]. eexists (df_set_columns cleaned sampled), _, columns.
    split_and!; [done..|].
    intros output_db_path w' ->. simpl. split; [done|].
    rewrite lookup_insert_eq. simpl. by rewrite lookup_insert_eq.
  - destruct (simple_clean_columns (df_columns df)) as [cleaned| |]; simpl; [|done..].
    destruct (decide (NoDup cleaned)) as [Hnodup|]; simpl; [|done].
    destruct (join_columns cleaned) as [columns| |] eqn:Hcolumns; simpl; [|done..].
    intros [= <-]. eexists (df_set_columns cleaned df), _, columns.
    split_and!; [done..|].
    intros output_db_path w' ->. simpl. split; [done|].
    rewrite lookup_insert_eq. simpl. by rewrite lookup_insert_eq.
Qed.

End sample_code_facts.

(** X18. The code [csv_to_sqlite_sample_data] returns for a path that ends
    in [.csv] is built from the frame [create_sqlite_file_directly] stores
    for the same path, table name and sample size (the same sample, drawn
    with the seed 42, under the same cleaned names, which are distinct):
    its CREATE TABLE statement is that of the names and dtypes of that
    frame, and its INSERT statements are made of the rows [df.iterrows()]
    yields for it, which need not show a cell as it is stored. When pandas
    accepts that frame, the direct call returns and leaves it under the
    table name. *)
Theorem csv_code_describes_direct_table `{Libraries} `{Iterrows} `{Disk}
    (csv_file_path table_name : string) (sample_size : Z) (w : world)
    (python_code : string) :
  PyStr.endswith ".csv" csv_file_path = true →
  (csv_to_sqlite_sample_data csv_file_path table_name sample_size w).1 = Ok python_code →
  ∃ table insert_sql columns,
    python_code = sample_data_code (generate_create_table_sql table table_name) insert_sql
    ∧ join_columns (df_columns table) = Ok columns
    ∧ insert_sql
      = PyStr.join (newline +:+ newline)
          (insert_statement table_name columns
             <$> record_chunks (insert_record <$> df_iterrows table))
    ∧ NoDup (df_columns table)
    ∧ ∀ output_db_path w',
        to_sql_raises table_name table = None →
        (create_sqlite_file_directly csv_file_path output_db_path table_name
           sample_size w').1 = Ok output_db_path
        ∧ files (create_sqlite_file_directly csv_file_path output_db_path table_name
                   sample_size w').2
            !! output_db_path ≫= (λ db, db !! table_name) = Some table.
Proof.
  intros Hcsv Hcode. unfold csv_to_sqlite_sample_data in Hcode.
  assert (read_path csv_file_path
          = (content ← of_lib (file_text csv_file_path); of_lib (pd_read_csv content)))
    as Hread by (unfold read_path; by rewrite Hcsv).
  rewrite <-Hread in Hcode. unfold_py.
  destruct (read_path csv_file_path) as [df| |] eqn:Hdf; [|done..].
  by eapply sample_code_core.
Qed.

(** X18 on the file of two rows of text at [/data/staff.csv]. *)
Lemma csv_code_describes_direct_table_witness :
  ∃ table insert_sql columns,
    sample_data_code (generate_create_table_sql staff_frame "staff")
      (insert_statement "staff" "full_name, pay_grade"
         ["('Ada', 'high')"; "('O''Brien', 'low')"])
    = sample_data_code (generate_create_table_sql table "staff") insert_sql
    ∧ join_columns (df_columns table) = Ok columns
    ∧ insert_sql
      = PyStr.join (newline +:+ newline)
          (insert_statement "staff" columns
             <$> record_chunks (@insert_record stub_libraries
                                  <$> @df_iterrows stub_iterrows table))
    ∧ NoDup (df_columns table)
    ∧ ∀ output_db_path w',
        @to_sql_raises stub_libraries "staff" table = None →
        (@create_sqlite_file_directly stub_libraries staff_disk "/data/staff.csv"
           output_db_path "staff" 1000 w').1 = Ok output_db_path
        ∧ files (@create_sqlite_file_directly stub_libraries staff_disk "/data/staff.csv"
                   output_db_path "staff" 1000 w').2
            !! output_db_path ≫= (λ db, db !! "staff") = Some table.
Proof.
  apply (@csv_code_describes_direct_table stub_libraries stub_iterrows staff_disk
           "/data/staff.csv" "staff" 1000%Z stub_world).
  - vm_compute. reflexivity.
  - vm_compute. reflexivity.
Defined.

(** X19. Where the upload path tells apart the names that its cleaning
    makes equal, [csv_to_sqlite_sample_data] does not: for a file whose
    column names are strings of which two are the same after the short
    cleaning, it raises, whatever the sample size from 0 on. *)
Theorem csv_code_raises_on_merged_names `{Libraries} `{Iterrows} `{Disk}
    (csv_file_path table_name : string) (sample_size : Z) (w : world)
    (content : string) (df : DataFrame) :
  file_text csv_file_path = inr content →
  pd_read_csv content = inr df →
  forallb is_str_label (df_columns df) = true →
  ¬ NoDup (simple_clean <$> (label_str <$> df_columns df)) →
  (0 ≤ sample_size)%Z →
  (csv_to_sqlite_sample_data csv_file_path table_name sample_size w).1
  = Raise (LibraryError "'DataFrame' object has no attribute 'dtype'").
Proof.
  intros Htext Hcsv Hstr Hmerged Hsize.
  unfold csv_to_sqlite_sample_data, sqlite_sample_data, create_table_sql_of.
  rewrite Htext. simpl. rewrite Hcsv. unfold_py.
  assert (∀ df', df_columns df' = df_columns df →
    ∃ columns, simple_clean_columns (df_columns df') = Ok columns
      ∧ ¬ NoDup columns) as Hcolumns.
  { intros df' ->. unfold simple_clean_columns. rewrite Hstr. eexists. split; [done|].
    intros Hnodup. apply Hmerged. rewrite <-list_fmap_compose.
    apply (NoDup_fmap_1 LStr). by rewrite <-list_fmap_compose. }
  destruct (sample_size <? Z.of_nat (df_len df))%Z eqn:Hlt.
  - apply Z.ltb_lt in Hlt. rewrite df_sample_seeded by lia. simpl.
    destruct (Hcolumns (df_take (rs_choice (np_RandomState 42) (df_len df)
                                   (Z.to_nat sample_size)).1 df) eq_refl)
      as (columns & Hclean & Hdup).
    simpl in Hclean. rewrite Hclean. simpl. by rewrite decide_False.
  - destruct (Hcolumns df eq_refl) as (columns & -> & Hdup). simpl.
    by rewrite decide_False.
Qed.

(** X19 on the file of three rows, whose names [a b] and [a-b] both
    become [a_b]. *)
Lemma csv_code_raises_on_merged_names_witness :
  (@csv_to_sqlite_sample_data stub_libraries stub_iterrows stub_disk "/data/three.csv"
     "data" 2 stub_world).1
  = Raise (LibraryError "'DataFrame' object has no attribute 'dtype'").
Proof.
  apply (@csv_code_raises_on_merged_names stub_libraries stub_iterrows stub_disk
           "/data/three.csv" "data" 2%Z stub_world (uf_content three_rows_csv)
           three_rows_frame).
  - vm_compute. reflexivity.
  - vm_compute. reflexivity.
  - reflexivity.
  - apply (bool_decide_unpack _). vm_compute. exact I.
  - lia.
Defined.

(** X20. The code [json_to_sqlite_sample_data] returns for a path that
    ends in [.json] is built from the frame [create_sqlite_file_directly]
    stores for the same path, table name and sample size, unless the JSON
    value is a dict of one key, which only the former unwraps: its CREATE
    TABLE statement is that of the names and dtypes of that frame, and its
    INSERT statements are made of the rows [df.iterrows()] yields for it,
    which need not show a cell as it is stored. When pandas accepts that
    frame, the direct call returns and leaves it under the table name. *)
Theorem json_code_describes_direct_table `{Libraries} `{Iterrows} `{Disk} `{PandasDict}
    (json_file_path table_name : string) (sample_size : Z) (w : world)
    (python_code : string) :
  PyStr.endswith ".csv" json_file_path = false →
  PyStr.endswith ".json" json_file_path = true →
  (∀ content data,
     file_text json_file_path = inr content → json_loads content = inr data →
     one_key_dict data = false) →
  (json_to_sqlite_sample_data json_file_path table_name sample_size w).1 = Ok python_code →
  ∃ table insert_sql columns,
    python_code = sample_data_code (generate_create_table_sql table table_name) insert_sql
    ∧ join_columns (df_columns table) = Ok columns
    ∧ insert_sql
      = PyStr.join (newline +:+ newline)
          (insert_statement table_name columns
             <$> record_chunks (insert_record <$> df_iterrows table))
    ∧ NoDup (df_columns table)
    ∧ ∀ output_db_path w',
        to_sql_raises table_name table = None →
        (create_sqlite_file_directly json_file_path output_db_path table_name
           sample_size w').1 = Ok output_db_path
        ∧ files (create_sqlite_file_directly json_file_path output_db_path table_name
                   sample_size w').2
            !! output_db_path ≫= (λ db, db !! table_name) = Some table.
Proof.
  intros Hcsv Hjson Hshape Hcode. unfold json_to_sqlite_sample_data in Hcode.
  unfold_py.
  destruct (read_json_path json_file_path) as [df| |] eqn:Hdf; [|done..].
  eapply sample_code_core; [|done].
  unfold read_path. rewrite Hcsv, Hjson. unfold read_json_path in Hdf.
  destruct (file_text json_file_path) as [error|content] eqn:Htext; [done|].
  simpl in *. destruct (json_loads content) as [error|data] eqn:Hdata; [done|].
  simpl in *. specialize (Hshape content data eq_refl Hdata).
  destruct data as [| | | | |items|[|[key value] [|item items]]]; try done.
Qed.

(** X20 on the file [/data/names.json], which holds two records of one
    string each. *)
Lemma json_code_describes_direct_table_witness :
  ∃ table insert_sql columns,
    sample_data_code (generate_create_table_sql names_frame "data")
      (insert_statement "data" "name" ["('Ada')"; "('O''Brien')"])
    = sample_data_code (generate_create_table_sql table "data") insert_sql
    ∧ join_columns (df_columns table) = Ok columns
    ∧ insert_sql
      = PyStr.join (newline +:+ newline)
          (insert_statement "data" columns
             <$> record_chunks (@insert_record records_libraries
                                  <$> @df_iterrows stub_iterrows table))
    ∧ NoDup (df_columns table)
    ∧ ∀ output_db_path w',
        @to_sql_raises records_libraries "data" table = None →
        (@create_sqlite_file_directly records_libraries staff_disk "/data/names.json"
           output_db_path "data" 1000 w').1 = Ok output_db_path
        ∧ files (@create_sqlite_file_directly records_libraries staff_disk
                   "/data/names.json" output_db_path "data" 1000 w').2
            !! output_db_path ≫= (λ db, db !! "data") = Some table.
Proof.
  apply (@json_code_describes_direct_table records_libraries stub_iterrows staff_disk
           stub_pandas_dict "/data/names.json" "data" 1000%Z
           (@Build_world records_libraries 0 ∅ [])).
  - vm_compute. reflexivity.
  - vm_compute. reflexivity.
  - intros content data Htext Hdata. vm_compute in Htext. injection Htext as <-.
    vm_compute in Hdata. by injection Hdata as <-.
  - vm_compute. reflexivity.
Defined.

(** ** The quick actions of a converted file in app.py *)

Lemma string_append_length (s1 s2 : string) :
  String.length (s1 +:+ s2) = String.length s1 + String.length s2.
Proof.
  induction s1 as [|c s1 IH]; [done|].
  change (String c s1 +:+ s2) with (String c (s1 +:+ s2)). simpl. by rewrite IH.
Qed.

Lemma quick_action_labels_distinct (table_name : string) :
  NoDup ["Show all " +:+ table_name; "Count " +:+ table_name +:+ " records";
         "Show " +:+ table_name +:+ " structure"; "Sample 10 records"].
Proof.
  assert ("Show all " +:+ table_name ≠ "Show " +:+ table_name +:+ " structure") as Hlength.
  { intros Heq. apply (f_equal String.length) in Heq.
    rewrite !string_append_length in Heq. simpl in Heq. lia. }
  repeat (apply NoDup_cons_2;
          [rewrite ?not_elem_of_cons; split_and?; try apply not_elem_of_nil;
           try done; by cbv [String.append]|]).
  apply NoDup_nil_2.
Qed.

Lemma py_dict_fresh {V} (items d : list (string * V)) :
  NoDup (d ++ items).*1 →
  foldl (λ d item, py_dict_set item.1 item.2 d) d items = d ++ items.
Proof.
  revert d. induction items as [|[key value] items IH]; intros d Hnodup; simpl.
  { by rewrite app_nil_r. }
  unfold py_dict_set at 2. simpl. rewrite decide_False.
  - rewrite IH; rewrite <-app_assoc; done.
  - rewrite fmap_app in Hnodup. apply NoDup_app in Hnodup as (_ & Hout & _).
    intros Hin. apply (Hout key Hin). simpl. by left.
Qed.

(** X21. Whatever the table name, the quick actions of a converted file
    are four buttons with distinct keys, and they set, in order, the
    queries of the table's rows, count, structure and sample. *)
Theorem converted_buttons_distinct (table_name : string) :
  length (converted_buttons table_name) = 4
  ∧ NoDup (converted_buttons table_name).*1
  ∧ (converted_buttons table_name).*2
    = ["SELECT * FROM " +:+ table_name +:+ " LIMIT 100;";
       "SELECT COUNT(*) as total_records FROM " +:+ table_name +:+ ";";
       "PRAGMA table_info(" +:+ table_name +:+ ");";
       "SELECT * FROM " +:+ table_name +:+ " ORDER BY RANDOM() LIMIT 10;"].
Proof.
  pose proof (quick_action_labels_distinct table_name) as Hlabels.
  unfold converted_buttons, converted_sample_queries, py_dict.
  rewrite py_dict_fresh by exact Hlabels.
  split; [done|]. split; [|done].
  apply (NoDup_fmap_2 (String.append "converted_")) in Hlabels. exact Hlabels.
Qed.
